(** * terraform-provider-jira-assets: the object resource

    A shallow embedding of the object resource of the provider (the
    schema lookups, the attribute value codec and the
    Create/Read/Update/Delete controller) together with the properties
    of its specification that were checked against it.

    Conventions of the embedding:
    - a Go pointer [*T] is [ptr T] (an [option]), [None] being [nil];
      dereferencing [nil] panics;
    - a Go computation that may panic has type [go A];
    - a Go [error] value is the pair of arguments given to [fmt.Errorf],
      a nilable [error] is an [option];
    - a Go [map[string]T] is a [gmap string T], a slice is a [list];
    - the controller methods run in the monad [M], which threads the
      trace of remote calls and log lines. *)

From Stdlib Require Import ZArith Ascii.
From stdpp Require Import base strings list gmap.

Local Open Scope Z_scope.
Local Open Scope string_scope.

(** ** Go runtime *)

Inductive go (A : Type) : Type :=
| Ret (a : A)
| Panic.
Arguments Ret {A} a.
Arguments Panic {A}.

Definition go_bind {A B : Type} (f : A -> go B) (m : go A) : go B :=
  match m with
  | Ret a => f a
  | Panic => Panic
  end.

#[global] Instance go_ret : MRet go := @Ret.
#[global] Instance go_mbind : MBind go := @go_bind.

Definition ptr (A : Type) : Type := option A.

(** [*p], [p.f]: a nil pointer dereference panics. *)
Definition deref {A : Type} (p : ptr A) : go A :=
  match p with
  | Some a => Ret a
  | None => Panic
  end.

(** [s[i]]: an index out of range panics. *)
Definition index {A : Type} (s : list A) (i : nat) : go A :=
  match s !! i with
  | Some a => Ret a
  | None => Panic
  end.

(** The error value built by [fmt.Errorf(format, args...)], kept as the
    arguments of the call. *)
Record error : Type := Errorf { format : string; args : list Z }.

(** [slices.Contains] *)
Fixpoint slices_Contains (s : list string) (v : string) : bool :=
  match s with
  | [] => false
  | x :: rest => if String.eqb x v then true else slices_Contains rest v
  end.

(** [strings.Join] *)
Definition strings_Join (elems : list string) (sep : string) : string :=
  String.concat sep elems.

(** ** The structures of the asset API client (package [models]) *)

(** Only the fields the provider reads or writes are kept. The field
    [Type] of the source is written [Type_]. *)

Module ObjectTypeScheme.
Record t : Type := mk { Id : string; Name : string }.
(** [&models.ObjectTypeScheme{}] *)
Definition zero : t := {| Id := ""; Name := "" |}.
End ObjectTypeScheme.

Module ObjectTypeAttributeScheme.
Record t : Type := mk {
  ID : string;
  ObjectType : ptr ObjectTypeScheme.t;
  Name : string;
  Type_ : Z
}.
(** [&models.ObjectTypeAttributeScheme{}] *)
Definition zero : t := {| ID := ""; ObjectType := None; Name := ""; Type_ := 0 |}.
End ObjectTypeAttributeScheme.

Module ObjectTypeAssetAttributeStatusScheme.
Record t : Type := mk { ID : string; Name : string }.
End ObjectTypeAssetAttributeStatusScheme.

Module ObjectTypeAssetAttributeValueScheme.
Record t : Type := mk {
  Value : string;
  SearchValue : string;
  Status : ptr ObjectTypeAssetAttributeStatusScheme.t
}.
End ObjectTypeAssetAttributeValueScheme.

Module ObjectAttributeScheme.
Record t : Type := mk {
  ObjectTypeAttribute : ptr ObjectTypeAttributeScheme.t;
  ObjectAttributeValues : list (ptr ObjectTypeAssetAttributeValueScheme.t)
}.
End ObjectAttributeScheme.

Module ObjectPayloadAttributeValueScheme.
Record t : Type := mk { Value : string }.
End ObjectPayloadAttributeValueScheme.

Module ObjectPayloadAttributeScheme.
Record t : Type := mk {
  ObjectTypeAttributeID : string;
  ObjectAttributeValues : list (ptr ObjectPayloadAttributeValueScheme.t)
}.
End ObjectPayloadAttributeScheme.

Module ObjectPayloadScheme.
Record t : Type := mk {
  ObjectTypeID : string;
  Attributes : list (ptr ObjectPayloadAttributeScheme.t);
  HasAvatar : bool;
  AvatarUUID : string
}.
End ObjectPayloadScheme.

Module ObjectScheme.
Record t : Type := mk {
  WorkspaceId : string;
  GlobalId : string;
  ID : string;
  Label : string;
  ObjectKey : string;
  ObjectType : ptr ObjectTypeScheme.t;
  Created : string;
  Updated : string;
  HasAvatar : bool
}.
End ObjectScheme.

(** Modelled from the spec: the declaration of [StatusTypeMetadata] is
    not among the sources; the source reads its fields [ID] and [Name]
    as strings, and the spec gives a status option as an (ID, Name)
    pair. *)
Module StatusTypeMetadata.
Record t : Type := mk { ID : string; Name : string }.
End StatusTypeMetadata.

(** ** Schema lookups *)

Fixpoint getObjectTypeByName (objName : string)
    (schema : list (ptr ObjectTypeScheme.t)) : go ObjectTypeScheme.t :=
  match schema with
  | [] => Ret ObjectTypeScheme.zero
  | p :: rest =>
      obj ← deref p;
      if String.eqb (ObjectTypeScheme.Name obj) objName then Ret obj
      else getObjectTypeByName objName rest
  end.

(** [&&] evaluates its right operand, and with it [obj.ObjectType.Name],
    only when the names are equal. *)
Fixpoint getObjectAttributeByName (objName objectType : string)
    (schema : list (ptr ObjectTypeAttributeScheme.t))
    : go ObjectTypeAttributeScheme.t :=
  match schema with
  | [] => Ret ObjectTypeAttributeScheme.zero
  | p :: rest =>
      obj ← deref p;
      if String.eqb (ObjectTypeAttributeScheme.Name obj) objName then
        ot ← deref (ObjectTypeAttributeScheme.ObjectType obj);
        if String.eqb (ObjectTypeScheme.Name ot) objectType then Ret obj
        else getObjectAttributeByName objName objectType rest
      else getObjectAttributeByName objName objectType rest
  end.

(** ** Status lookup table *)

(** The loop of [getConfigStatusIDByName]; [statuses] is the slice of
    names collected so far. *)
Fixpoint getConfigStatusIDByName_range (status : string)
    (table : list StatusTypeMetadata.t) (statuses : list string)
    : string * option error :=
  match table with
  | [] =>
      ("", Some (Errorf ("unknown status, available statuses: "
                           ++ strings_Join statuses ",") []))
  | statusType :: rest =>
      let statuses := (statuses ++ [StatusTypeMetadata.Name statusType])%list in
      if String.eqb (StatusTypeMetadata.Name statusType) status
      then (StatusTypeMetadata.ID statusType, None)
      else getConfigStatusIDByName_range status rest statuses
  end.

Definition getConfigStatusIDByName (status : string)
    (statusType : ptr (list StatusTypeMetadata.t))
    : go (string * option error) :=
  table ← deref statusType;
  Ret (getConfigStatusIDByName_range status table []).

Fixpoint getConfigStatusNameByID_range (id : string)
    (table : list StatusTypeMetadata.t) : string :=
  match table with
  | [] => ""
  | statusType :: rest =>
      if String.eqb (StatusTypeMetadata.ID statusType) id
      then StatusTypeMetadata.Name statusType
      else getConfigStatusNameByID_range id rest
  end.

Definition getConfigStatusNameByID (id : string)
    (statusType : ptr (list StatusTypeMetadata.t)) : go string :=
  table ← deref statusType;
  Ret (getConfigStatusNameByID_range id table).

(** ** Attribute value codec *)

Definition getAttributeValue (attr : ptr ObjectAttributeScheme.t)
    (statusType : ptr (list StatusTypeMetadata.t))
    : go (string * option error) :=
  a ← deref attr;
  ota ← deref (ObjectAttributeScheme.ObjectTypeAttribute a);
  match ObjectTypeAttributeScheme.Type_ ota with
  | 1 =>
      v ← index (ObjectAttributeScheme.ObjectAttributeValues a) 0 ≫= deref;
      Ret (ObjectTypeAssetAttributeValueScheme.SearchValue v, None)
  | 0 =>
      v ← index (ObjectAttributeScheme.ObjectAttributeValues a) 0 ≫= deref;
      Ret (ObjectTypeAssetAttributeValueScheme.Value v, None)
  | 7 =>
      v ← index (ObjectAttributeScheme.ObjectAttributeValues a) 0 ≫= deref;
      st ← deref (ObjectTypeAssetAttributeValueScheme.Status v);
      name ← getConfigStatusNameByID
               (ObjectTypeAssetAttributeStatusScheme.ID st) statusType;
      Ret (name, None)
  | code => Ret ("", Some (Errorf "unsupported attribute type: %d" [code]))
  end.

Definition returnAttributePayloadValue (name value objectType : string)
    (objectSchemaAttributes : list (ptr ObjectTypeAttributeScheme.t))
    (statusType : ptr (list StatusTypeMetadata.t))
    : go (ptr ObjectPayloadAttributeScheme.t * option error) :=
  attrSchema ← getObjectAttributeByName name objectType objectSchemaAttributes;
  let payload (val : string) :=
    Some {| ObjectPayloadAttributeScheme.ObjectTypeAttributeID :=
              ObjectTypeAttributeScheme.ID attrSchema;
            ObjectPayloadAttributeScheme.ObjectAttributeValues :=
              [Some {| ObjectPayloadAttributeValueScheme.Value := val |}] |} in
  if Z.eqb (ObjectTypeAttributeScheme.Type_ attrSchema) 7 then
    '(val, err) ← getConfigStatusIDByName value statusType;
    match err with
    | Some e => Ret (None, Some e)
    | None => Ret (payload val, None)
    end
  else Ret (payload value, None).

(** ** Terraform plugin framework values (package [types]) *)

Module types.
Inductive String : Type :=
| StringNull
| StringUnknown
| StringValue (s : string).

Definition ValueString (v : String) : string :=
  match v with
  | StringValue s => s
  | _ => ""
  end.

Inductive Bool : Type :=
| BoolNull
| BoolUnknown
| BoolValue (b : bool).

Definition ValueBool (v : Bool) : bool :=
  match v with
  | BoolValue b => b
  | _ => false
  end.

Inductive Map : Type :=
| MapNull
| MapUnknown
| MapValue (elems : gmap string String).

(** [m.Elements()], and the map that [m.ElementsAs(ctx, &elements, false)]
    fills: the source drops the diagnostics of [ElementsAs], and a null
    or unknown map leaves [elements] without entries. *)
Definition Elements (m : Map) : gmap string String :=
  match m with
  | MapValue elems => elems
  | _ => ∅
  end.

(** [types.MapValueFrom(ctx, types.StringType, m)] on a [map[string]string] *)
Definition MapValueFrom (m : gmap string string) : Map :=
  MapValue (StringValue <$> m).
End types.

Record objectResourceModel : Type := mkModel {
  WorkspaceId : types.String;
  GlobalId : types.String;
  Id : types.String;
  Label : types.String;
  ObjectKey : types.String;
  Created : types.String;
  Updated : types.String;
  HasAvatar : types.Bool;
  Type_ : types.String;
  Attributes : types.Map;
  AvatarUuid : types.String
}.

(** [resp.Diagnostics.AddError(summary, err.Error())] *)
Record Diagnostic : Type := AddError { Summary : string; Detail : error }.

(** What a lifecycle method leaves in its response: the diagnostics, and
    the model given to [resp.State.Set] if it was called. *)
Record Response : Type := mkResponse {
  Diagnostics : list Diagnostic;
  State : option objectResourceModel
}.

(** ** The remote object API and the trace of a method *)

Module ResponseScheme.
Record t : Type := mk { StatusCode : Z }.
End ResponseScheme.

Inductive RemoteCall : Type :=
| Object_Create (workspaceId : string) (payload : ObjectPayloadScheme.t)
| Object_Get (workspaceId id : string)
| Object_Attributes (workspaceId id : string)
| Object_Update (workspaceId id : string) (payload : ObjectPayloadScheme.t)
| Object_Delete (workspaceId id : string).

Inductive Event : Type :=
| Call (c : RemoteCall)
| tflog_Error (msg : string + error)
| tflog_Info (msg : string).

(** The answers of the remote system, [r.client.Object]. *)
Module assets.
Record Client : Type := mk {
  Create : string -> ObjectPayloadScheme.t ->
           ptr ObjectScheme.t * ptr ResponseScheme.t * option error;
  Get : string -> string ->
        ptr ObjectScheme.t * ptr ResponseScheme.t * option error;
  Attributes : string -> string ->
               list (ptr ObjectAttributeScheme.t) * ptr ResponseScheme.t
               * option error;
  Update : string -> string -> ObjectPayloadScheme.t ->
           ptr ObjectScheme.t * ptr ResponseScheme.t * option error;
  Delete : string -> string -> ptr ResponseScheme.t * option error
}.
End assets.

Definition M (A : Type) : Type := list Event -> list Event * go A.

Definition M_ret {A : Type} (a : A) : M A := fun tr => (tr, Ret a).

Definition M_bind {A B : Type} (f : A -> M B) (m : M A) : M B :=
  fun tr =>
    match m tr with
    | (tr', Ret a) => f a tr'
    | (tr', Panic) => (tr', Panic)
    end.

#[global] Instance M_mret : MRet M := @M_ret.
#[global] Instance M_mbind : MBind M := @M_bind.

Definition lift {A : Type} (g : go A) : M A := fun tr => (tr, g).

Definition emit (e : Event) : M unit := fun tr => ((tr ++ [e])%list, Ret tt).

Definition run {A : Type} (m : M A) : list Event * go A := m [].

(** The remote calls of a trace, in order. *)
Definition calls (tr : list Event) : list RemoteCall :=
  omap (fun e => match e with Call c => Some c | _ => None end) tr.

(** ** The object resource *)

Record objectResource : Type := mkResource {
  client : assets.Client;
  workspaceId : string;
  objectschemaId : string;
  ignoreKeys : list string;
  objectSchemaTypes : list (ptr ObjectTypeScheme.t);
  objectSchemaAttributes : list (ptr ObjectTypeAttributeScheme.t);
  configStatusType : ptr (list StatusTypeMetadata.t)
}.

(** [req.Plan.Get] and [req.State.Get] are taken to have succeeded: a
    request carries the decoded model. *)
Record Request : Type := mkRequest { Model : objectResourceModel }.

(** [if response != nil { tflog.Error(ctx, msg, fields) }] *)
Definition logResponse (response : ptr ResponseScheme.t) (msg : string)
    : M unit :=
  match response with
  | Some _ => emit (tflog_Error (inl msg))
  | None => mret tt
  end.

(** The loop [for attr_type, attr_value := range elements] that Create
    and Update share, over the pairs in the order of the iteration; it
    stops at the first error. *)
Fixpoint payloadAttributes (r : objectResource) (objectType : string)
    (elements : list (string * types.String))
    (attributes : list (ptr ObjectPayloadAttributeScheme.t))
    : go (list (ptr ObjectPayloadAttributeScheme.t) * option error) :=
  match elements with
  | [] => Ret (attributes, None)
  | (attr_type, attr_value) :: rest =>
      '(v, e) ← returnAttributePayloadValue attr_type
                  (types.ValueString attr_value) objectType
                  (objectSchemaAttributes r) (configStatusType r);
      match e with
      | Some e => Ret (attributes, Some e)
      | None => payloadAttributes r objectType rest (attributes ++ [v])%list
      end
  end.

(** The loop of Read over the attribute records of the remote object. *)
Fixpoint readAttributes (r : objectResource)
    (attrs : list (ptr ObjectAttributeScheme.t))
    (attributes : gmap string string) : go (gmap string string) :=
  match attrs with
  | [] => Ret attributes
  | attr :: rest =>
      let ignore_keys := (["Created"; "Key"; "Updated"] ++ ignoreKeys r)%list in
      a ← deref attr;
      ota ← deref (ObjectAttributeScheme.ObjectTypeAttribute a);
      let name := ObjectTypeAttributeScheme.Name ota in
      if negb (slices_Contains ignore_keys name) then
        '(v, _) ← getAttributeValue attr (configStatusType r);
        readAttributes r rest (<[name := v]> attributes)
      else readAttributes r rest attributes
  end.

(** The computed fields Create and Update copy from the returned object. *)
Definition populateComputed (plan : objectResourceModel)
    (object : ObjectScheme.t) : objectResourceModel :=
  {| WorkspaceId := types.StringValue (ObjectScheme.WorkspaceId object);
     GlobalId := types.StringValue (ObjectScheme.GlobalId object);
     Id := types.StringValue (ObjectScheme.ID object);
     Label := types.StringValue (ObjectScheme.Label object);
     ObjectKey := types.StringValue (ObjectScheme.ObjectKey object);
     Created := types.StringValue (ObjectScheme.Created object);
     Updated := types.StringValue (ObjectScheme.Updated object);
     HasAvatar := types.BoolValue (ObjectScheme.HasAvatar object);
     Type_ := Type_ plan;
     Attributes := Attributes plan;
     AvatarUuid := AvatarUuid plan |}.

Section Controller.

(** Go leaves the order in which [range] visits a map unspecified:
    [rangeMap m] is the order of one iteration over [m]. *)
Variable rangeMap : gmap string types.String -> list (string * types.String).

Definition Create (r : objectResource) (req : Request) : M Response :=
  let plan := Model req in
  object_type_id ← lift (getObjectTypeByName
                           (types.ValueString (Type_ plan))
                           (objectSchemaTypes r));
  let elements := rangeMap (types.Elements (Attributes plan)) in
  '(attributes, e) ← lift (payloadAttributes r
                             (ObjectTypeScheme.Name object_type_id)
                             elements []);
  match e with
  | Some e =>
      emit (tflog_Error (inr e));;
      mret (mkResponse [AddError "Error during object attributes setting" e]
                       None)
  | None =>
      let payload :=
        {| ObjectPayloadScheme.ObjectTypeID := ObjectTypeScheme.Id object_type_id;
           ObjectPayloadScheme.Attributes := attributes;
           ObjectPayloadScheme.HasAvatar := types.ValueBool (HasAvatar plan);
           ObjectPayloadScheme.AvatarUUID := types.ValueString (AvatarUuid plan) |} in
      emit (Call (Object_Create (workspaceId r) payload));;
      let '(object, response, err) :=
        assets.Create (client r) (workspaceId r) payload in
      match err with
      | Some err =>
          logResponse response "Error creating object: %s";;
          mret (mkResponse [AddError "Error during object creation" err] None)
      | None =>
          object ← lift (deref object);
          mret (mkResponse [] (Some (populateComputed plan object)))
      end
  end.

Definition Read (r : objectResource) (req : Request) : M Response :=
  let state := Model req in
  emit (Call (Object_Get (workspaceId r) (types.ValueString (Id state))));;
  let '(object, response, err) :=
    assets.Get (client r) (workspaceId r) (types.ValueString (Id state)) in
  match err with
  | Some err =>
      logResponse response "Error reading object: %s";;
      mret (mkResponse [AddError "Error during object reading" err] None)
  | None =>
      emit (Call (Object_Attributes (workspaceId r)
                    (types.ValueString (Id state))));;
      let '(attrs, response, err) :=
        assets.Attributes (client r) (workspaceId r)
          (types.ValueString (Id state)) in
      match err with
      | Some err =>
          logResponse response "Error reading object attributes: %s";;
          mret (mkResponse
                  [AddError "Error during object attributes reading" err] None)
      | None =>
          attributes ← lift (readAttributes r attrs ∅);
          let mapValue := types.MapValueFrom attributes in
          object ← lift (deref object);
          objectType ← lift (deref (ObjectScheme.ObjectType object));
          mret (mkResponse []
                  (Some
                     {| Attributes := mapValue;
                        WorkspaceId := types.StringValue (ObjectScheme.WorkspaceId object);
                        GlobalId := types.StringValue (ObjectScheme.GlobalId object);
                        Id := types.StringValue (ObjectScheme.ID object);
                        Label := types.StringValue (ObjectScheme.Label object);
                        ObjectKey := types.StringValue (ObjectScheme.ObjectKey object);
                        HasAvatar := types.BoolValue (ObjectScheme.HasAvatar object);
                        Type_ := types.StringValue (ObjectTypeScheme.Name objectType);
                        Created := Created state;
                        Updated := Updated state;
                        AvatarUuid := AvatarUuid state |}))
      end
  end.

Definition Update (r : objectResource) (req : Request) : M Response :=
  let plan := Model req in
  object_type_id ← lift (getObjectTypeByName
                           (types.ValueString (Type_ plan))
                           (objectSchemaTypes r));
  let elements := rangeMap (types.Elements (Attributes plan)) in
  '(attributes, e) ← lift (payloadAttributes r
                             (ObjectTypeScheme.Name object_type_id)
                             elements []);
  match e with
  | Some e =>
      emit (tflog_Error (inr e));;
      mret (mkResponse [AddError "Error during object attributes setting" e]
                       None)
  | None =>
      let payload :=
        {| ObjectPayloadScheme.ObjectTypeID := ObjectTypeScheme.Id object_type_id;
           ObjectPayloadScheme.Attributes := attributes;
           ObjectPayloadScheme.HasAvatar := types.ValueBool (HasAvatar plan);
           ObjectPayloadScheme.AvatarUUID := types.ValueString (AvatarUuid plan) |} in
      emit (tflog_Info "Updating object.");;
      emit (Call (Object_Update (workspaceId r)
                    (types.ValueString (Id plan)) payload));;
      let '(object, response, err) :=
        assets.Update (client r) (workspaceId r)
          (types.ValueString (Id plan)) payload in
      match err with
      | Some err =>
          logResponse response "Error updating object: %s";;
          mret (mkResponse [AddError "Error during object update" err] None)
      | None =>
          object ← lift (deref object);
          mret (mkResponse [] (Some (populateComputed plan object)))
      end
  end.

Definition Delete (r : objectResource) (req : Request) : M Response :=
  let state := Model req in
  emit (Call (Object_Delete (workspaceId r) (types.ValueString (Id state))));;
  let '(response, err) :=
    assets.Delete (client r) (workspaceId r) (types.ValueString (Id state)) in
  match err with
  | Some err =>
      logResponse response "Error deleting object: %s";;
      mret (mkResponse [AddError "Error during object deletion" err] None)
  | None => mret (mkResponse [] None)
  end.

End Controller.

(** ** Further vocabulary *)

(** Entries of the status table that share a Name share an ID. *)
Definition name_determines_id (table : list StatusTypeMetadata.t) : Prop :=
  forall a b, a ∈ table -> b ∈ table ->
    StatusTypeMetadata.Name a = StatusTypeMetadata.Name b ->
    StatusTypeMetadata.ID a = StatusTypeMetadata.ID b.

(** The string holds the character [%]. *)
Fixpoint contains_percent (s : string) : bool :=
  match s with
  | EmptyString => false
  | String c rest => Ascii.eqb c "%"%char || contains_percent rest
  end.

(** The text [e.Error()] of an error that [fmt.Errorf] built without
    operands from a format that holds no [%]: the format itself. A [%]
    in the format starts a verb and operands are formatted; the text of
    such errors is not modelled. *)
Definition Error_text (e : error) : option string :=
  match args e with
  | [] => if contains_percent (format e) then None else Some (format e)
  | _ :: _ => None
  end.

(** The state ImportState leaves: every attribute null but [id]. *)
Definition importedState (ID : string) : objectResourceModel :=
  {| WorkspaceId := types.StringNull;
     GlobalId := types.StringNull;
     Id := types.StringValue ID;
     Label := types.StringNull;
     ObjectKey := types.StringNull;
     Created := types.StringNull;
     Updated := types.StringNull;
     HasAvatar := types.BoolNull;
     Type_ := types.StringNull;
     Attributes := types.MapNull;
     AvatarUuid := types.StringNull |}.

(** [resource.ImportStatePassthroughID(ctx, path.Root("id"), req, resp)],
    the whole of ImportState: in the state of the response, whose
    attributes are all null, the attribute [id] is set to [req.ID]. *)
Definition ImportState (ID : string) : Response :=
  mkResponse [] (Some (importedState ID)).

(** The encoding of the pair does not panic. *)
Definition encoding_returns (r : objectResource) (objectType : string)
    (kv : string * types.String) : Prop :=
  exists res,
    returnAttributePayloadValue kv.1 (types.ValueString kv.2) objectType
      (objectSchemaAttributes r) (configStatusType r) = Ret res.

(** The encoding of the pair fails with the error [e]. *)
Definition encoding_fails (r : objectResource) (objectType : string)
    (e : error) (kv : string * types.String) : Prop :=
  exists p,
    returnAttributePayloadValue kv.1 (types.ValueString kv.2) objectType
      (objectSchemaAttributes r) (configStatusType r) = Ret (p, Some e).

(** ** The provider: configuration and schema cache *)

(** [v.IsNull()], [v.IsUnknown()] *)
Definition String_IsNull (v : types.String) : bool :=
  match v with
  | types.StringNull => true
  | _ => false
  end.

Definition String_IsUnknown (v : types.String) : bool :=
  match v with
  | types.StringUnknown => true
  | _ => false
  end.

Module ObjectTypeAttributesParamsScheme.
Record t : Type := mk {
  OnlyValueEditable : bool;
  OrderByName : bool;
  Query : string;
  IncludeValuesExist : bool;
  ExcludeParentAttributes : bool;
  IncludeChildren : bool;
  OrderByRequired : bool
}.
End ObjectTypeAttributesParamsScheme.

(** The answers of the whole of [*assets.Client]: [assets.Client] above
    is its [Object] service; the provider also calls
    [ObjectSchema.ObjectTypes] and [ObjectType.Attributes]. *)
Module assetsClient.
Record t : Type := mk {
  Object : assets.Client;
  ObjectSchema_ObjectTypes :
    string -> string -> bool ->
    list (ptr ObjectTypeScheme.t) * ptr ResponseScheme.t * option error;
  ObjectType_Attributes :
    string -> string -> ObjectTypeAttributesParamsScheme.t ->
    list (ptr ObjectTypeAttributeScheme.t) * ptr ResponseScheme.t
    * option error
}.
End assetsClient.

(** What happens while the provider is configured, in order. *)
Inductive ProviderEvent : Type :=
| tflog_line (level msg : string)
| assets_New
| Auth_SetBasicAuth (user password : string)
| Call_ObjectTypes (workSpaceID objectSchemaID : string) (excludeAbstract : bool)
| Call_Attributes (workSpaceID objectTypeID : string)
    (options : ObjectTypeAttributesParamsScheme.t)
| log_Println_Bytes (response : ResponseScheme.t)
| log_Println_Endpoint (response : ResponseScheme.t)
| log_Fatal (err : error).

(** A computation of the provider returns, panics, or ends the process
    ([log.Fatal]). *)
Inductive exec (A : Type) : Type :=
| Returns (a : A)
| Panics
| Exits.
Arguments Returns {A} a.
Arguments Panics {A}.
Arguments Exits {A}.

Definition P (A : Type) : Type :=
  list ProviderEvent -> list ProviderEvent * exec A.

Definition P_ret {A : Type} (a : A) : P A := fun tr => (tr, Returns a).

Definition P_bind {A B : Type} (f : A -> P B) (m : P A) : P B :=
  fun tr =>
    match m tr with
    | (tr', Returns a) => f a tr'
    | (tr', Panics) => (tr', Panics)
    | (tr', Exits) => (tr', Exits)
    end.

#[global] Instance P_mret : MRet P := @P_ret.
#[global] Instance P_mbind : MBind P := @P_bind.

Definition P_lift {A : Type} (g : go A) : P A :=
  fun tr =>
    match g with
    | Ret a => (tr, Returns a)
    | Panic => (tr, Panics)
    end.

Definition P_emit (e : ProviderEvent) : P unit :=
  fun tr => ((tr ++ [e])%list, Returns tt).

Definition P_run {A : Type} (m : P A) : list ProviderEvent * exec A := m [].

(** [if response != nil { log.Println(...); log.Println(...) };
    log.Fatal(err)] *)
Definition fatal {A : Type} (response : ptr ResponseScheme.t) (err : error)
    : P A :=
  fun tr =>
    ((tr ++ match response with
            | Some response =>
                [log_Println_Bytes response; log_Println_Endpoint response]
            | None => []
            end ++ [log_Fatal err])%list,
     Exits).

Definition getObjectSchemaAttributes_options
    : ObjectTypeAttributesParamsScheme.t :=
  {| ObjectTypeAttributesParamsScheme.OnlyValueEditable := true;
     ObjectTypeAttributesParamsScheme.OrderByName := false;
     ObjectTypeAttributesParamsScheme.Query := "";
     ObjectTypeAttributesParamsScheme.IncludeValuesExist := false;
     ObjectTypeAttributesParamsScheme.ExcludeParentAttributes := false;
     ObjectTypeAttributesParamsScheme.IncludeChildren := true;
     ObjectTypeAttributesParamsScheme.OrderByRequired := false |}.

(** The loop of [getObjectSchemaAttributes]; [ret] is the map filled so
    far. *)
Fixpoint getObjectSchemaAttributes_range (asset : ptr assetsClient.t)
    (workSpaceID : string) (objectTypes : list (ptr ObjectTypeScheme.t))
    (ret : gmap string (list (ptr ObjectTypeAttributeScheme.t)))
    : P (gmap string (list (ptr ObjectTypeAttributeScheme.t))) :=
  match objectTypes with
  | [] => mret ret
  | p :: rest =>
      client ← P_lift (deref asset);
      objectType ← P_lift (deref p);
      let id := ObjectTypeScheme.Id objectType in
      P_emit (Call_Attributes workSpaceID id
                getObjectSchemaAttributes_options);;
      let '(attributes, response, err) :=
        assetsClient.ObjectType_Attributes client workSpaceID id
          getObjectSchemaAttributes_options in
      match err with
      | Some err => fatal response err
      | None =>
          getObjectSchemaAttributes_range asset workSpaceID rest
            (<[id := attributes]> ret)
      end
  end.

Definition getObjectSchemaAttributes (asset : ptr assetsClient.t)
    (workSpaceID : string) (objectTypes : list (ptr ObjectTypeScheme.t))
    : P (gmap string (list (ptr ObjectTypeAttributeScheme.t))) :=
  getObjectSchemaAttributes_range asset workSpaceID objectTypes ∅.

Definition getObjectSchemaObjectTypes (asset : ptr assetsClient.t)
    (workSpaceID objsectSchemaID : string)
    : P (list (ptr ObjectTypeScheme.t)) :=
  client ← P_lift (deref asset);
  P_emit (Call_ObjectTypes workSpaceID objsectSchemaID false);;
  let '(schema, response, err) :=
    assetsClient.ObjectSchema_ObjectTypes client workSpaceID objsectSchemaID
      false in
  match err with
  | Some err => fatal response err
  | None => mret schema
  end.

Module JiraAssetsProviderModel.
Record t : Type := mk {
  WorkspaceId : types.String;
  User : types.String;
  Password : types.String;
  ObjectSchemaId : types.String;
  IgnoreKeys : list string
}.
End JiraAssetsProviderModel.

(** The provider data of [provider.go]; there the attribute definitions
    are cached in a map keyed by the ID of their object type. *)
Module JiraAssetsProviderClient.
Record t : Type := mk {
  client : ptr assetsClient.t;
  workspaceId : string;
  objectschemaId : string;
  ignoreKeys : list string;
  objectSchemaTypes : list (ptr ObjectTypeScheme.t);
  objectSchemaAttributes : gmap string (list (ptr ObjectTypeAttributeScheme.t))
}.
End JiraAssetsProviderClient.

(** [resp.Diagnostics.AddAttributeError(path.Root(p), summary, detail)]
    and [resp.Diagnostics.AddError(summary, prefix + err.Error())]. *)
Inductive ProviderDiagnostic : Type :=
| AddAttributeError (root summary detail : string)
| AddClientError (summary prefix : string) (err : error).

Definition Unknown_WorkspaceId : ProviderDiagnostic :=
  AddAttributeError "workspaceId" "Unknown Assets Workspace Id"
    ("The provider cannot create the Assets API client as there is an unknown configuration value for the Assets API workspace Id. "
     +:+ "Either target apply the source of the value first, set the value statically in the configuration, or use the JIRAASSETS_WORKSPACE_ID environment variable.").

Definition Unknown_User : ProviderDiagnostic :=
  AddAttributeError "user" "Unknown Assets User"
    ("The provider cannot create the Assets API client as there is an unknown configuration value for the Assets API user. "
     +:+ "Either target apply the source of the value first, set the value statically in the configuration, or use the JIRAASSETS_USER environment variable.").

Definition Unknown_Password : ProviderDiagnostic :=
  AddAttributeError "password" "Unknown Assets Password"
    ("The provider cannot create the Assets API client as there is an unknown configuration value for the Assets API password. "
     +:+ "Either target apply the source of the value first, set the value statically in the configuration, or use the JIRAASSETS_PASSWORD environment variable.").

Definition Unknown_ObjectSchemaId : ProviderDiagnostic :=
  AddAttributeError "objectschemaId" "Unknown Asset objectschemaId"
    ("The provider cannot create the Assets API client as there is an unknown configuration value for the objectschemaId. "
     +:+ "Either target apply the source of the value first, set the value statically in the configuration, or use the JIRAASSETS_OBJECTSCHEMA_ID environment variable.").

Definition Missing_WorkspaceId : ProviderDiagnostic :=
  AddAttributeError "workspaceId" "Missing Assets API Workspace Id"
    ("The provider cannot create the Assets API client as there is a missing or empty value for the Assets API workspace Id. "
     +:+ "Set the host value in the configuration or use the JIRAASSETS_WORKSPACE_ID environment variable. "
     +:+ "If either is already set, ensure the value is not empty.").

Definition Missing_User : ProviderDiagnostic :=
  AddAttributeError "user" "Missing Assets API User"
    ("The provider cannot create the Assets API client as there is a missing or empty value for the Assets API username. "
     +:+ "Set the user value in the configuration or use the JIRAASSETS_USER environment variable. "
     +:+ "If either is already set, ensure the value is not empty.").

Definition Missing_Password : ProviderDiagnostic :=
  AddAttributeError "password" "Missing Assets API Password"
    ("The provider cannot create the Assets API client as there is a missing or empty value for the Assets API password. "
     +:+ "Set the password value in the configuration or use the JIRAASSETS_PASSWORD environment variable. "
     +:+ "If either is already set, ensure the value is not empty.").

(** What the provider's Configure leaves in its response. *)
Record ConfigureResponse : Type := mkConfigureResponse {
  ProviderDiagnostics : list ProviderDiagnostic;
  DataSourceData : option JiraAssetsProviderClient.t;
  ResourceData : option JiraAssetsProviderClient.t
}.

(** The process around the provider: the environment variables
    ([os.Getenv], empty for an unset variable) and the result of
    [assets.New(nil, "")]. *)
Record Process : Type := mkProcess {
  Getenv : string -> string;
  New : ptr assetsClient.t * option error
}.

(** [if cond { resp.Diagnostics.AddAttributeError(...) }] *)
Definition addIf (cond : bool) (d : ProviderDiagnostic)
    : list ProviderDiagnostic :=
  if cond then [d] else [].

(** A setting: the environment variable, overridden by the configured
    value unless that is null. *)
Definition setting (os : Process) (variable : string) (configured : types.String)
    : string :=
  if negb (String_IsNull configured) then types.ValueString configured
  else Getenv os variable.

(** [JiraAssetsProvider.Configure]; [req.Config.Get] is taken to have
    succeeded and to have given [config]. *)
Definition Configure_provider (os : Process) (config : JiraAssetsProviderModel.t)
    : P ConfigureResponse :=
  P_emit (tflog_line "info" "Configuring Jira Assets provider");;
  let diags :=
    (addIf (String_IsUnknown (JiraAssetsProviderModel.WorkspaceId config))
       Unknown_WorkspaceId
     ++ addIf (String_IsUnknown (JiraAssetsProviderModel.User config))
          Unknown_User
     ++ addIf (String_IsUnknown (JiraAssetsProviderModel.Password config))
          Unknown_Password
     ++ addIf (String_IsUnknown (JiraAssetsProviderModel.ObjectSchemaId config))
          Unknown_ObjectSchemaId)%list in
  match diags with
  | _ :: _ => mret (mkConfigureResponse diags None None)
  | [] =>
      let workspaceId :=
        setting os "JIRAASSETS_WORKSPACE_ID"
          (JiraAssetsProviderModel.WorkspaceId config) in
      let user :=
        setting os "JIRAASSETS_USER" (JiraAssetsProviderModel.User config) in
      let password :=
        setting os "JIRAASSETS_PASSWORD"
          (JiraAssetsProviderModel.Password config) in
      let objectschemaId :=
        setting os "JIRAASSETS_OBJECTSCHEMA_ID"
          (JiraAssetsProviderModel.ObjectSchemaId config) in
      let diags :=
        (addIf (String.eqb workspaceId "") Missing_WorkspaceId
         ++ addIf (String.eqb user "") Missing_User
         ++ addIf (String.eqb password "") Missing_Password)%list in
      match diags with
      | _ :: _ => mret (mkConfigureResponse diags None None)
      | [] =>
          P_emit (tflog_line "debug" "Creating HashiCups client");;
          P_emit assets_New;;
          let '(client, err) := New os in
          let diags :=
            match err with
            | Some err =>
                [AddClientError "Unable to create Assets client"
                   "An unexpected error occurred when creating the Assets API client. Error: "
                   err]
            | None => []
            end in
          _ ← P_lift (deref client);
          P_emit (Auth_SetBasicAuth user password);;
          objectSchemaTypes ←
            getObjectSchemaObjectTypes client workspaceId objectschemaId;
          objectSchemaAttributes ←
            getObjectSchemaAttributes client workspaceId objectSchemaTypes;
          let providerClient :=
            {| JiraAssetsProviderClient.client := client;
               JiraAssetsProviderClient.workspaceId := workspaceId;
               JiraAssetsProviderClient.objectschemaId := objectschemaId;
               JiraAssetsProviderClient.ignoreKeys :=
                 JiraAssetsProviderModel.IgnoreKeys config;
               JiraAssetsProviderClient.objectSchemaTypes := objectSchemaTypes;
               JiraAssetsProviderClient.objectSchemaAttributes :=
                 objectSchemaAttributes |} in
          P_emit (tflog_line "info" "Configured Jira Assets client");;
          mret (mkConfigureResponse diags (Some providerClient)
                  (Some providerClient))
      end
  end.

(** The attribute definitions the remote system returns for the object
    type of the given ID. *)
Definition fetched (client : assetsClient.t) (workSpaceID id : string)
    : list (ptr ObjectTypeAttributeScheme.t) :=
  (assetsClient.ObjectType_Attributes client workSpaceID id
     getObjectSchemaAttributes_options).1.1.

(** The fetch of the attribute definitions of the object type of the
    given ID reports no error. *)
Definition fetch_succeeds (client : assetsClient.t) (workSpaceID id : string)
    : Prop :=
  (assetsClient.ObjectType_Attributes client workSpaceID id
     getObjectSchemaAttributes_options).2 = None.

(** The value of a setting that is not unknown: the configured value if
    there is one, the environment variable otherwise. *)
Definition configured_or_env (os : Process) (variable : string)
    (configured : types.String) : string :=
  match configured with
  | types.StringValue s => s
  | _ => Getenv os variable
  end.

(** None of the four settings of the configuration is unknown. *)
Definition all_known (config : JiraAssetsProviderModel.t) : Prop :=
  JiraAssetsProviderModel.WorkspaceId config <> types.StringUnknown /\
  JiraAssetsProviderModel.User config <> types.StringUnknown /\
  JiraAssetsProviderModel.Password config <> types.StringUnknown /\
  JiraAssetsProviderModel.ObjectSchemaId config <> types.StringUnknown.

(** ** Vocabulary of the properties *)

(** [r] is the first record of [l], in list order, that satisfies [P],
    or [zero] when no record of [l] satisfies [P]. *)
Definition first_match {A : Type} (P : A -> Prop) (l : list (ptr A))
    (zero r : A) : Prop :=
  (exists i : nat,
      l !! i = Some (Some r) /\ P r /\
      forall (j : nat) (x : A), (j < i)%nat -> l !! j = Some (Some x) -> ~ P x)
  \/ ((forall x : A, Some x ∈ l -> ~ P x) /\ r = zero).

(** The attribute definition [a] carries the name [objName] and belongs
    to the object type named [objectType]. *)
Definition attribute_named (objName objectType : string)
    (a : ObjectTypeAttributeScheme.t) : Prop :=
  ObjectTypeAttributeScheme.Name a = objName /\
  exists ot, ObjectTypeAttributeScheme.ObjectType a = Some ot /\
             ObjectTypeScheme.Name ot = objectType.

(** No entry of the slice is nil. *)
Definition no_nil {A : Type} (l : list (ptr A)) : Prop :=
  forall p, p ∈ l -> p <> None.

(** Every attribute definition of the slice is non-nil and points to its
    object type. *)
Definition typed_attributes (l : list (ptr ObjectTypeAttributeScheme.t)) : Prop :=
  forall p, p ∈ l ->
    exists a ot, p = Some a /\ ObjectTypeAttributeScheme.ObjectType a = Some ot.

(** The type codes the decoder supports. *)
Definition supported (code : Z) : Prop := code = 0 \/ code = 1 \/ code = 7.

(** Entries of the status table that share an ID share a Name. *)
Definition id_determines_name (table : list StatusTypeMetadata.t) : Prop :=
  forall a b, a ∈ table -> b ∈ table ->
    StatusTypeMetadata.ID a = StatusTypeMetadata.ID b ->
    StatusTypeMetadata.Name a = StatusTypeMetadata.Name b.

(** The names Read always leaves out, followed by the configured ones. *)
Definition ignore_keys (r : objectResource) : list string :=
  (["Created"; "Key"; "Updated"] ++ ignoreKeys r)%list.

(** The pair (name, planned value) is encoded, without error, to [p]. *)
Definition encodes (r : objectResource) (objectType : string)
    (kv : string * types.String)
    (p : ptr ObjectPayloadAttributeScheme.t) : Prop :=
  returnAttributePayloadValue kv.1 (types.ValueString kv.2) objectType
    (objectSchemaAttributes r) (configStatusType r) = Ret (p, None).

(** [name] is the name of an attribute record of the remote answer. *)
Definition remote_name (attrs : list (ptr ObjectAttributeScheme.t))
    (name : string) : Prop :=
  exists a ota,
    Some a ∈ attrs /\
    ObjectAttributeScheme.ObjectTypeAttribute a = Some ota /\
    ObjectTypeAttributeScheme.Name ota = name.

(** The attribute record that carries a payload record: under the
    attribute definition [def], each value holds the value of the
    payload record and, as its search value, the string [search] that
    the remote system derives for it (the payload carries none); it
    holds no status. *)
Definition storedRecord (def : ObjectTypeAttributeScheme.t)
    (payload : ObjectPayloadAttributeScheme.t) (search : string)
    : ObjectAttributeScheme.t :=
  {| ObjectAttributeScheme.ObjectTypeAttribute := Some def;
     ObjectAttributeScheme.ObjectAttributeValues :=
       fmap (M := list)
         (fmap (M := option)
            (fun pv =>
               {| ObjectTypeAssetAttributeValueScheme.Value :=
                    ObjectPayloadAttributeValueScheme.Value pv;
                  ObjectTypeAssetAttributeValueScheme.SearchValue := search;
                  ObjectTypeAssetAttributeValueScheme.Status := None |}))
         (ObjectPayloadAttributeScheme.ObjectAttributeValues payload) |}.

(** [p] is the payload attribute record of the pair (name, planned
    value): a non-nil record, keyed by the ID of the attribute
    definition the name resolves to, with a single non-nil value, which
    is the ID of the named status for a status attribute (type code 7)
    and the planned value otherwise. *)
Definition payload_record_of (r : objectResource) (objectType : string)
    (kv : string * types.String)
    (p : ptr ObjectPayloadAttributeScheme.t) : Prop :=
  exists def val,
    getObjectAttributeByName kv.1 objectType (objectSchemaAttributes r)
    = Ret def /\
    p = Some {| ObjectPayloadAttributeScheme.ObjectTypeAttributeID :=
                  ObjectTypeAttributeScheme.ID def;
                ObjectPayloadAttributeScheme.ObjectAttributeValues :=
                  [Some {| ObjectPayloadAttributeValueScheme.Value := val |}] |} /\
    if Z.eqb (ObjectTypeAttributeScheme.Type_ def) 7
    then getConfigStatusIDByName (types.ValueString kv.2) (configStatusType r)
         = Ret (val, None)
    else val = types.ValueString kv.2.

(** The pair (name, planned value) can be encoded: the lookup of the
    name returns, and if it returns a status attribute (type code 7) the
    status table is there and holds the planned value as a name. *)
Definition encodable (r : objectResource) (objectType : string)
    (kv : string * types.String) : Prop :=
  exists def,
    getObjectAttributeByName kv.1 objectType (objectSchemaAttributes r)
    = Ret def /\
    (ObjectTypeAttributeScheme.Type_ def = 7 ->
     exists table,
       configStatusType r = Some table /\
       types.ValueString kv.2 ∈ (StatusTypeMetadata.Name <$> table)).

(** ** A worked instance: the object type "Host" *)

Definition ex_host : ObjectTypeScheme.t :=
  {| ObjectTypeScheme.Id := "10"; ObjectTypeScheme.Name := "Host" |}.

Definition ex_status : ObjectTypeAttributeScheme.t :=
  {| ObjectTypeAttributeScheme.ID := "134";
     ObjectTypeAttributeScheme.ObjectType := Some ex_host;
     ObjectTypeAttributeScheme.Name := "Status";
     ObjectTypeAttributeScheme.Type_ := 7 |}.

Definition ex_ips : ObjectTypeAttributeScheme.t :=
  {| ObjectTypeAttributeScheme.ID := "135";
     ObjectTypeAttributeScheme.ObjectType := Some ex_host;
     ObjectTypeAttributeScheme.Name := "external_ips";
     ObjectTypeAttributeScheme.Type_ := 0 |}.

Definition ex_key : ObjectTypeAttributeScheme.t :=
  {| ObjectTypeAttributeScheme.ID := "130";
     ObjectTypeAttributeScheme.ObjectType := Some ex_host;
     ObjectTypeAttributeScheme.Name := "Key";
     ObjectTypeAttributeScheme.Type_ := 0 |}.

(** An attribute of a type code the decoder does not support. *)
Definition ex_location : ObjectTypeAttributeScheme.t :=
  {| ObjectTypeAttributeScheme.ID := "136";
     ObjectTypeAttributeScheme.ObjectType := Some ex_host;
     ObjectTypeAttributeScheme.Name := "Location";
     ObjectTypeAttributeScheme.Type_ := 2 |}.

(** A reference attribute (type code 1). *)
Definition ex_owner : ObjectTypeAttributeScheme.t :=
  {| ObjectTypeAttributeScheme.ID := "140";
     ObjectTypeAttributeScheme.ObjectType := Some ex_host;
     ObjectTypeAttributeScheme.Name := "Owner";
     ObjectTypeAttributeScheme.Type_ := 1 |}.

(** The payload record the encoder returns for the owner "HOST-7". *)
Definition ex_owner_payload : ObjectPayloadAttributeScheme.t :=
  {| ObjectPayloadAttributeScheme.ObjectTypeAttributeID := "140";
     ObjectPayloadAttributeScheme.ObjectAttributeValues :=
       [Some {| ObjectPayloadAttributeValueScheme.Value := "HOST-7" |}] |}.

Definition ex_schema : list (ptr ObjectTypeAttributeScheme.t) :=
  [Some ex_status; Some ex_ips].

Definition ex_table : list StatusTypeMetadata.t :=
  [ {| StatusTypeMetadata.ID := "1"; StatusTypeMetadata.Name := "Enabled" |};
    {| StatusTypeMetadata.ID := "2"; StatusTypeMetadata.Name := "Disabled" |} ].

Definition ex_value (value : string)
    (status : ptr ObjectTypeAssetAttributeStatusScheme.t)
    : ptr ObjectTypeAssetAttributeValueScheme.t :=
  Some {| ObjectTypeAssetAttributeValueScheme.Value := value;
          ObjectTypeAssetAttributeValueScheme.SearchValue := value;
          ObjectTypeAssetAttributeValueScheme.Status := status |}.

Definition ex_location_record : ObjectAttributeScheme.t :=
  {| ObjectAttributeScheme.ObjectTypeAttribute := Some ex_location;
     ObjectAttributeScheme.ObjectAttributeValues := [ex_value "Rack 4" None] |}.

Definition ex_records_before : list (ptr ObjectAttributeScheme.t) :=
  [ Some {| ObjectAttributeScheme.ObjectTypeAttribute := Some ex_key;
            ObjectAttributeScheme.ObjectAttributeValues :=
              [ex_value "HOST-55" None] |};
    Some {| ObjectAttributeScheme.ObjectTypeAttribute := Some ex_ips;
            ObjectAttributeScheme.ObjectAttributeValues :=
              [ex_value "1.2.3.4" None] |};
    Some {| ObjectAttributeScheme.ObjectTypeAttribute := Some ex_status;
            ObjectAttributeScheme.ObjectAttributeValues :=
              [ex_value ""
                 (Some {| ObjectTypeAssetAttributeStatusScheme.ID := "1";
                          ObjectTypeAssetAttributeStatusScheme.Name := "Enabled" |})] |} ].

Definition ex_records : list (ptr ObjectAttributeScheme.t) :=
  (ex_records_before ++ [Some ex_location_record])%list.

Definition ex_object : ObjectScheme.t :=
  {| ObjectScheme.WorkspaceId := "ws";
     ObjectScheme.GlobalId := "ws:55";
     ObjectScheme.ID := "55";
     ObjectScheme.Label := "web-1";
     ObjectScheme.ObjectKey := "HOST-55";
     ObjectScheme.ObjectType := Some ex_host;
     ObjectScheme.Created := "2025-01-01T00:00:00Z";
     ObjectScheme.Updated := "2025-06-01T00:00:00Z";
     ObjectScheme.HasAvatar := false |}.

(** A remote system that accepts every call. *)
Definition ex_client : assets.Client :=
  {| assets.Create := fun _ _ => (Some ex_object, None, None);
     assets.Get := fun _ _ => (Some ex_object, None, None);
     assets.Attributes := fun _ _ => (ex_records, None, None);
     assets.Update := fun _ _ _ => (Some ex_object, None, None);
     assets.Delete := fun _ _ => (None, None) |}.

Definition ex_resource : objectResource :=
  {| client := ex_client;
     workspaceId := "ws";
     objectschemaId := "1";
     ignoreKeys := ["CI Class"];
     objectSchemaTypes := [Some ex_host];
     objectSchemaAttributes := ex_schema;
     configStatusType := Some ex_table |}.

(** A plan for a new "Host" with the given attributes. *)
Definition ex_plan (attributes : gmap string types.String) : Request :=
  {| Model :=
       {| WorkspaceId := types.StringUnknown;
          GlobalId := types.StringUnknown;
          Id := types.StringUnknown;
          Label := types.StringUnknown;
          ObjectKey := types.StringUnknown;
          Created := types.StringUnknown;
          Updated := types.StringUnknown;
          HasAvatar := types.BoolValue false;
          Type_ := types.StringValue "Host";
          Attributes := types.MapValue attributes;
          AvatarUuid := types.StringNull |} |}.

(** The state of object 55 as it was recorded before the remote object
    was last updated. *)
Definition ex_state : Request :=
  {| Model :=
       {| WorkspaceId := types.StringValue "ws";
          GlobalId := types.StringValue "ws:55";
          Id := types.StringValue "55";
          Label := types.StringValue "web-1";
          ObjectKey := types.StringValue "HOST-55";
          Created := types.StringNull;
          Updated := types.StringValue "2025-01-01T00:00:00Z";
          HasAvatar := types.BoolValue false;
          Type_ := types.StringValue "Host";
          Attributes := types.MapValue ∅;
          AvatarUuid := types.StringNull |} |}.

(** The state Read leaves for [ex_state]. *)
Definition ex_refreshed : objectResourceModel :=
  {| WorkspaceId := types.StringValue "ws";
     GlobalId := types.StringValue "ws:55";
     Id := types.StringValue "55";
     Label := types.StringValue "web-1";
     ObjectKey := types.StringValue "HOST-55";
     Created := types.StringNull;
     Updated := types.StringValue "2025-01-01T00:00:00Z";
     HasAvatar := types.BoolValue false;
     Type_ := types.StringValue "Host";
     Attributes :=
       types.MapValueFrom
         (<["Location" := ""]>
            (<["Status" := "Enabled"]>
               (<["external_ips" := "1.2.3.4"]> ∅)));
     AvatarUuid := types.StringNull |}.

Definition ex_read_trace : list Event :=
  [Call (Object_Get "ws" "55"); Call (Object_Attributes "ws" "55")].

(** ** Further instances *)

(** A plan for an object of the type "Router", which the schema of the
    instance does not hold, without attributes. *)
Definition ex_router_plan : Request :=
  {| Model :=
       {| WorkspaceId := types.StringUnknown;
          GlobalId := types.StringUnknown;
          Id := types.StringUnknown;
          Label := types.StringUnknown;
          ObjectKey := types.StringUnknown;
          Created := types.StringUnknown;
          Updated := types.StringUnknown;
          HasAvatar := types.BoolValue false;
          Type_ := types.StringValue "Router";
          Attributes := types.MapValue ∅;
          AvatarUuid := types.StringNull |} |}.

Definition ex_unknown_status : error :=
  Errorf "unknown status, available statuses: Enabled,Disabled" [].

Definition ex_remote_failure : error := Errorf "remote failure" [].

Definition ex_response : ResponseScheme.t :=
  {| ResponseScheme.StatusCode := 500 |}.

(** A remote system that refuses every call. *)
Definition ex_client_down : assets.Client :=
  {| assets.Create := fun _ _ => (None, Some ex_response, Some ex_remote_failure);
     assets.Get := fun _ _ => (None, Some ex_response, Some ex_remote_failure);
     assets.Attributes := fun _ _ => ([], Some ex_response, Some ex_remote_failure);
     assets.Update := fun _ _ _ => (None, Some ex_response, Some ex_remote_failure);
     assets.Delete := fun _ _ => (Some ex_response, Some ex_remote_failure) |}.

Definition ex_resource_down : objectResource :=
  {| client := ex_client_down;
     workspaceId := "ws";
     objectschemaId := "1";
     ignoreKeys := ["CI Class"];
     objectSchemaTypes := [Some ex_host];
     objectSchemaAttributes := ex_schema;
     configStatusType := Some ex_table |}.

(** The state Read leaves for the imported object 55. *)
Definition ex_imported_refreshed : objectResourceModel :=
  {| WorkspaceId := types.StringValue "ws";
     GlobalId := types.StringValue "ws:55";
     Id := types.StringValue "55";
     Label := types.StringValue "web-1";
     ObjectKey := types.StringValue "HOST-55";
     Created := types.StringNull;
     Updated := types.StringNull;
     HasAvatar := types.BoolValue false;
     Type_ := types.StringValue "Host";
     Attributes :=
       types.MapValueFrom
         (<["Location" := ""]>
            (<["Status" := "Enabled"]>
               (<["external_ips" := "1.2.3.4"]> ∅)));
     AvatarUuid := types.StringNull |}.

Definition ex_status_record : ObjectAttributeScheme.t :=
  {| ObjectAttributeScheme.ObjectTypeAttribute := Some ex_status;
     ObjectAttributeScheme.ObjectAttributeValues :=
       [ex_value ""
          (Some {| ObjectTypeAssetAttributeStatusScheme.ID := "1";
                   ObjectTypeAssetAttributeStatusScheme.Name := "Enabled" |})] |}.

(** The whole client of the instance: one object type, "Host". *)
Definition ex_assets : assetsClient.t :=
  {| assetsClient.Object := ex_client;
     assetsClient.ObjectSchema_ObjectTypes :=
       fun _ _ _ => ([Some ex_host], None, None);
     assetsClient.ObjectType_Attributes :=
       fun _ id _ =>
         (if String.eqb id "10" then ex_schema else [], None, None) |}.

(** A client whose schema calls fail. *)
Definition ex_assets_down : assetsClient.t :=
  {| assetsClient.Object := ex_client_down;
     assetsClient.ObjectSchema_ObjectTypes :=
       fun _ _ _ => ([], None, Some ex_remote_failure);
     assetsClient.ObjectType_Attributes :=
       fun _ _ _ => ([], None, Some ex_remote_failure) |}.

(** A process with the workspace ID, the user and the password in its
    environment, and no object schema ID. *)
Definition ex_process : Process :=
  {| Getenv := fun variable =>
       if String.eqb variable "JIRAASSETS_WORKSPACE_ID" then "ws-env"
       else if String.eqb variable "JIRAASSETS_USER" then "bot"
       else if String.eqb variable "JIRAASSETS_PASSWORD" then "secret"
       else "";
     New := (Some ex_assets, None) |}.

(** A configuration that sets the workspace ID only. *)
Definition ex_config : JiraAssetsProviderModel.t :=
  {| JiraAssetsProviderModel.WorkspaceId := types.StringValue "ws";
     JiraAssetsProviderModel.User := types.StringNull;
     JiraAssetsProviderModel.Password := types.StringNull;
     JiraAssetsProviderModel.ObjectSchemaId := types.StringNull;
     JiraAssetsProviderModel.IgnoreKeys := ["CI Class"] |}.

(** A configuration that sets the workspace ID to the empty string. *)
Definition ex_config_empty : JiraAssetsProviderModel.t :=
  {| JiraAssetsProviderModel.WorkspaceId := types.StringValue "";
     JiraAssetsProviderModel.User := types.StringNull;
     JiraAssetsProviderModel.Password := types.StringNull;
     JiraAssetsProviderModel.ObjectSchemaId := types.StringNull;
     JiraAssetsProviderModel.IgnoreKeys := [] |}.

(** A configuration whose password is not known yet. *)
Definition ex_config_unknown : JiraAssetsProviderModel.t :=
  {| JiraAssetsProviderModel.WorkspaceId := types.StringValue "ws";
     JiraAssetsProviderModel.User := types.StringNull;
     JiraAssetsProviderModel.Password := types.StringUnknown;
     JiraAssetsProviderModel.ObjectSchemaId := types.StringNull;
     JiraAssetsProviderModel.IgnoreKeys := [] |}.

(** ** Proof tactics *)

(** Unfolds the trace monad, leaving the Go computations in place. *)
Ltac unfold_M :=
  cbv [run mbind M_mbind M_bind mret M_mret M_ret lift emit];
  change (@go_mbind) with (@go_bind).

(** Case analysis on the membership in a list given by its elements. *)
Ltac list_cases H :=
  repeat match type of H with
         | _ ∈ (_ :: _) => apply elem_of_cons in H as [H | H]
         | _ ∈ [] => by apply elem_of_nil in H
         end.

(** Unfolds the monad of the provider. *)
Ltac unfold_P :=
  cbv [P_run mbind P_mbind P_bind mret P_mret P_ret P_lift P_emit fatal deref].

(** Membership of a diagnostic in a list given by its elements. *)
Ltac diag_in :=
  split;
  [ let H := fresh in
    intros H; list_cases H; first [ done | vm_compute in H; discriminate ]
  | let H := fresh in
    intros H;
    first [ discriminate | congruence | repeat (first [ by left | right ]) ] ].

(** One list given by its elements is a sublist of another. *)
Ltac solve_sublist :=
  repeat first [ apply sublist_nil | apply sublist_skip | apply sublist_cons ].

(** ** Properties of the schema lookups *)

Lemma eqb_true (a b : string) : String.eqb a b = true <-> a = b.
Proof. apply String.eqb_eq. Qed.

Lemma eqb_false (a b : string) : String.eqb a b = false <-> a <> b.
Proof. apply String.eqb_neq. Qed.

Lemma first_match_cons_hit {A : Type} (P : A -> Prop) (l : list (ptr A))
    (zero x : A) :
  P x -> first_match P (Some x :: l) zero x.
Proof.
  intros HP. left. exists 0%nat. split; [reflexivity|]. split; [exact HP|].
  intros j y Hj. lia.
Qed.

Lemma first_match_cons_miss {A : Type} (P : A -> Prop) (l : list (ptr A))
    (zero x r : A) :
  ~ P x -> first_match P l zero r -> first_match P (Some x :: l) zero r.
Proof.
  intros HnP [(i & Hi & HP & Hbefore) | [Hnone ->]].
  - left. exists (S i). split; [exact Hi|]. split; [exact HP|].
    intros [|j] y Hj Hy.
    + simpl in Hy. injection Hy as <-. exact HnP.
    + simpl in Hy. apply (Hbefore j); [lia | exact Hy].
  - right. split; [|reflexivity].
    intros y Hy. apply elem_of_cons in Hy as [Heq | Hy].
    + injection Heq as ->. exact HnP.
    + apply Hnone, Hy.
Qed.

Lemma first_match_nil {A : Type} (P : A -> Prop) (zero : A) :
  first_match P [] zero zero.
Proof. right. split; [|reflexivity]. intros x Hx. inversion Hx. Qed.

Lemma getObjectTypeByName_first_match (objName : string)
    (schema : list (ptr ObjectTypeScheme.t)) :
  no_nil schema ->
  exists r, getObjectTypeByName objName schema = Ret r /\
            first_match (fun o => ObjectTypeScheme.Name o = objName)
              schema ObjectTypeScheme.zero r.
Proof.
  induction schema as [|p rest IH]; intros Hnn.
  - exists ObjectTypeScheme.zero. split; [reflexivity | apply first_match_nil].
  - destruct p as [obj|]; [|exfalso; apply (Hnn None); [left | reflexivity]].
    simpl. destruct (String.eqb (ObjectTypeScheme.Name obj) objName) eqn:E.
    + exists obj. split; [reflexivity|].
      apply first_match_cons_hit. by apply eqb_true.
    + destruct IH as (r & Hr & Hfm).
      { intros q Hq. apply Hnn. by right. }
      exists r. split; [exact Hr|].
      apply first_match_cons_miss; [by apply eqb_false | exact Hfm].
Qed.

Lemma getObjectAttributeByName_first_match (objName objectType : string)
    (schema : list (ptr ObjectTypeAttributeScheme.t)) :
  typed_attributes schema ->
  exists r, getObjectAttributeByName objName objectType schema = Ret r /\
            first_match (attribute_named objName objectType)
              schema ObjectTypeAttributeScheme.zero r.
Proof.
  induction schema as [|p rest IH]; intros Hty.
  - exists ObjectTypeAttributeScheme.zero.
    split; [reflexivity | apply first_match_nil].
  - destruct (Hty p) as (a & ot & -> & Hot); [left|].
    assert (Hrest : typed_attributes rest).
    { intros q Hq. apply Hty. by right. }
    destruct (IH Hrest) as (r & Hr & Hfm). simpl. rewrite Hot. simpl.
    destruct (String.eqb (ObjectTypeAttributeScheme.Name a) objName) eqn:E1;
      [destruct (String.eqb (ObjectTypeScheme.Name ot) objectType) eqn:E2|].
    + exists a. split; [reflexivity|]. apply first_match_cons_hit.
      split; [by apply eqb_true|]. exists ot. split; [exact Hot|].
      by apply eqb_true.
    + exists r. split; [exact Hr|]. apply first_match_cons_miss; [|exact Hfm].
      intros (_ & ot' & Hot' & Hname). rewrite Hot in Hot'.
      injection Hot' as <-. by apply eqb_false in E2.
    + exists r. split; [exact Hr|]. apply first_match_cons_miss; [|exact Hfm].
      intros (Hname & _). by apply eqb_false in E1.
Qed.

(** C7 (as amended): on a slice of object types without nil entries,
    and on a slice of attribute definitions whose entries are non-nil
    and point to their object type, [getObjectTypeByName] and
    [getObjectAttributeByName] do not panic; they return the first
    matching record in list order, and the zero-value record when no
    record matches. *)
Theorem lookups_first_match_or_zero :
  forall (typeName objName objectType : string)
         (types_ : list (ptr ObjectTypeScheme.t))
         (attrs : list (ptr ObjectTypeAttributeScheme.t)),
    no_nil types_ -> typed_attributes attrs ->
    (exists r, getObjectTypeByName typeName types_ = Ret r /\
               first_match (fun o => ObjectTypeScheme.Name o = typeName)
                 types_ ObjectTypeScheme.zero r) /\
    (exists r, getObjectAttributeByName objName objectType attrs = Ret r /\
               first_match (attribute_named objName objectType)
                 attrs ObjectTypeAttributeScheme.zero r).
Proof.
  intros typeName objName objectType types_ attrs Hnn Hty. split.
  - by apply getObjectTypeByName_first_match.
  - by apply getObjectAttributeByName_first_match.
Qed.

(** C7, counterexample: a matching name on an entry whose ObjectType is
    nil makes [getObjectAttributeByName] panic, and so does a nil entry
    met by [getObjectTypeByName] before a match. *)
Lemma lookups_panic_on_nil :
  getObjectAttributeByName "Status" "Host"
    [Some {| ObjectTypeAttributeScheme.ID := "134";
             ObjectTypeAttributeScheme.ObjectType := None;
             ObjectTypeAttributeScheme.Name := "Status";
             ObjectTypeAttributeScheme.Type_ := 7 |}] = Panic
  /\ getObjectTypeByName "Host"
       [None; Some {| ObjectTypeScheme.Id := "10";
                      ObjectTypeScheme.Name := "Host" |}] = Panic.
Proof. split; reflexivity. Qed.

(** ** Properties of the status lookup table *)

Lemma getConfigStatusIDByName_range_found (status : string)
    (table : list StatusTypeMetadata.t) :
  status ∈ (StatusTypeMetadata.Name <$> table) ->
  forall statuses, exists x,
    x ∈ table /\ StatusTypeMetadata.Name x = status /\
    getConfigStatusIDByName_range status table statuses
    = (StatusTypeMetadata.ID x, None).
Proof.
  induction table as [|y rest IH]; intros Hin statuses.
  - inversion Hin.
  - simpl. destruct (String.eqb (StatusTypeMetadata.Name y) status) eqn:E.
    + exists y. split; [left|]. split; [by apply eqb_true | reflexivity].
    + apply eqb_false in E. simpl in Hin.
      apply elem_of_cons in Hin as [Heq | Hin]; [congruence|].
      destruct (IH Hin (statuses ++ [StatusTypeMetadata.Name y])%list)
        as (x & Hx & Hname & Hrun).
      exists x. split; [by right|]. by split.
Qed.

Lemma getConfigStatusNameByID_range_found (x : StatusTypeMetadata.t)
    (table : list StatusTypeMetadata.t) :
  x ∈ table ->
  exists y, y ∈ table /\
    StatusTypeMetadata.ID y = StatusTypeMetadata.ID x /\
    getConfigStatusNameByID_range (StatusTypeMetadata.ID x) table
    = StatusTypeMetadata.Name y.
Proof.
  induction table as [|z rest IH]; intros Hin.
  - inversion Hin.
  - simpl. destruct (String.eqb (StatusTypeMetadata.ID z)
                                 (StatusTypeMetadata.ID x)) eqn:E.
    + exists z. split; [left|]. split; [by apply eqb_true | reflexivity].
    + apply eqb_false in E.
      apply elem_of_cons in Hin as [-> | Hin]; [congruence|].
      destruct (IH Hin) as (y & Hy & Hid & Hrun).
      exists y. split; [by right|]. by split.
Qed.

Lemma getConfigStatusIDByName_range_error (status : string)
    (table : list StatusTypeMetadata.t) (statuses : list string)
    (s : string) (e : error) :
  getConfigStatusIDByName_range status table statuses = (s, Some e) ->
  s = "" /\ args e = [] /\
  format e = "unknown status, available statuses: "
             ++ strings_Join
                  (statuses ++ (StatusTypeMetadata.Name <$> table))%list ",".
Proof.
  revert statuses. induction table as [|y rest IH]; intros statuses H.
  - simpl in H. injection H as <- <-. simpl. by rewrite app_nil_r.
  - simpl in H. destruct (String.eqb (StatusTypeMetadata.Name y) status);
      [discriminate|].
    apply IH in H. simpl. by rewrite <- app_assoc in H.
Qed.

(** ** Properties of the attribute value codec *)

Lemma getAttributeValue_unsupported (ota : ObjectTypeAttributeScheme.t)
    (values : list (ptr ObjectTypeAssetAttributeValueScheme.t))
    (statusType : ptr (list StatusTypeMetadata.t)) :
  ~ supported (ObjectTypeAttributeScheme.Type_ ota) ->
  getAttributeValue
    (Some {| ObjectAttributeScheme.ObjectTypeAttribute := Some ota;
             ObjectAttributeScheme.ObjectAttributeValues := values |})
    statusType
  = Ret ("", Some (Errorf "unsupported attribute type: %d"
                     [ObjectTypeAttributeScheme.Type_ ota])).
Proof.
  intros Hns. unfold getAttributeValue. simpl.
  destruct (ObjectTypeAttributeScheme.Type_ ota) as [|p|p].
  - exfalso. apply Hns. by left.
  - destruct p as [[[q|q|]|q|]|q|]; try reflexivity.
    + exfalso. apply Hns. right. by right.
    + exfalso. apply Hns. right. by left.
  - reflexivity.
Qed.

Lemma getAttributeValue_supported (ota : ObjectTypeAttributeScheme.t)
    (values : list (ptr ObjectTypeAssetAttributeValueScheme.t))
    (statusType : ptr (list StatusTypeMetadata.t)) :
  supported (ObjectTypeAttributeScheme.Type_ ota) ->
  getAttributeValue
    (Some {| ObjectAttributeScheme.ObjectTypeAttribute := Some ota;
             ObjectAttributeScheme.ObjectAttributeValues := values |})
    statusType
  = (v ← index values 0 ≫= deref;
     if Z.eqb (ObjectTypeAttributeScheme.Type_ ota) 1
     then Ret (ObjectTypeAssetAttributeValueScheme.SearchValue v, None)
     else if Z.eqb (ObjectTypeAttributeScheme.Type_ ota) 0
     then Ret (ObjectTypeAssetAttributeValueScheme.Value v, None)
     else
       st ← deref (ObjectTypeAssetAttributeValueScheme.Status v);
       name ← getConfigStatusNameByID
                (ObjectTypeAssetAttributeStatusScheme.ID st) statusType;
       Ret (name, None)).
Proof.
  intros [H | [H | H]]; unfold getAttributeValue; simpl; rewrite H;
    reflexivity.
Qed.

(** Whenever the decoder reports an error, the string it returns with it
    is empty. *)
Lemma getAttributeValue_error_empty (attr : ptr ObjectAttributeScheme.t)
    (statusType : ptr (list StatusTypeMetadata.t)) (s : string) (e : error) :
  getAttributeValue attr statusType = Ret (s, Some e) -> s = "".
Proof.
  destruct attr as [[[ota|] values]|]; try discriminate.
  destruct (decide (supported (ObjectTypeAttributeScheme.Type_ ota)))
    as [Hs | Hns].
  - rewrite (getAttributeValue_supported _ _ _ Hs).
    destruct values as [|[v|] rest]; try discriminate. simpl.
    destruct (Z.eqb _ 1); [discriminate|].
    destruct (Z.eqb _ 0); [discriminate|].
    destruct (ObjectTypeAssetAttributeValueScheme.Status v); [|discriminate].
    destruct statusType; discriminate.
  - rewrite (getAttributeValue_unsupported _ _ _ Hns). congruence.
Qed.

(** C10: for a record whose type code is 0, 1 or 7, [getAttributeValue]
    reads the first element of the value list: it panics on an empty
    list, it returns (and then with a nil error) only when the list is
    non-empty, and with a non-empty list it returns an error exactly
    when the type code is outside {0, 1, 7}. With a non-nil first value
    (and, for code 7, a non-nil status and status table) it does
    return. *)
Theorem getAttributeValue_reads_first_value :
  forall (ota : ObjectTypeAttributeScheme.t)
         (values : list (ptr ObjectTypeAssetAttributeValueScheme.t))
         (statusType : ptr (list StatusTypeMetadata.t)),
    let attr :=
      Some {| ObjectAttributeScheme.ObjectTypeAttribute := Some ota;
              ObjectAttributeScheme.ObjectAttributeValues := values |} in
    let code := ObjectTypeAttributeScheme.Type_ ota in
    (supported code -> values = [] ->
       getAttributeValue attr statusType = Panic) /\
    (supported code -> forall s e,
       getAttributeValue attr statusType = Ret (s, e) ->
       values <> [] /\ e = None) /\
    (values <> [] ->
       ((exists s e, getAttributeValue attr statusType = Ret (s, Some e))
        <-> ~ supported code)) /\
    (supported code -> forall v rest,
       values = Some v :: rest ->
       (code = 7 ->
        ObjectTypeAssetAttributeValueScheme.Status v <> None /\
        statusType <> None) ->
       exists s, getAttributeValue attr statusType = Ret (s, None)).
Proof.
  intros ota values statusType attr code. subst attr code.
  split; [|split; [|split]].
  - intros Hs ->. by rewrite (getAttributeValue_supported _ _ _ Hs).
  - intros Hs s e. rewrite (getAttributeValue_supported _ _ _ Hs).
    destruct values as [|[v|] rest]; try discriminate. simpl.
    intros H. split; [discriminate|].
    destruct (Z.eqb _ 1); [congruence|].
    destruct (Z.eqb _ 0); [congruence|].
    destruct (ObjectTypeAssetAttributeValueScheme.Status v); [|discriminate].
    destruct statusType; [simpl in H; congruence | discriminate].
  - intros _. split.
    + intros (s & e & H) Hs.
      rewrite (getAttributeValue_supported _ _ _ Hs) in H.
      destruct values as [|[v|] rest]; try discriminate. simpl in H.
      destruct (Z.eqb _ 1); [discriminate|].
      destruct (Z.eqb _ 0); [discriminate|].
      destruct (ObjectTypeAssetAttributeValueScheme.Status v); [|discriminate].
      destruct statusType; discriminate.
    + intros Hns. eexists _, _. by apply getAttributeValue_unsupported.
  - intros Hs v rest -> Hnil.
    rewrite (getAttributeValue_supported _ _ _ Hs). simpl.
    destruct (Z.eqb_spec (ObjectTypeAttributeScheme.Type_ ota) 1);
      [by eexists|].
    destruct (Z.eqb_spec (ObjectTypeAttributeScheme.Type_ ota) 0);
      [by eexists|].
    destruct Hnil as [Hst Htable]; [by destruct Hs as [?|[?|?]]|].
    destruct (ObjectTypeAssetAttributeValueScheme.Status v); [|done].
    destruct statusType; [|done]. by eexists.
Qed.

(** C2 (as amended): when the entries of the status table that share an
    ID also share a Name (in particular when IDs are unique), every
    statusName of the table is encoded to an ID that decodes back to
    statusName; the codec carries this through a status attribute
    (type code 7): the payload holds that ID, and a record whose status
    holds that ID decodes to statusName. *)
Theorem status_roundtrip :
  forall (table : list StatusTypeMetadata.t) (statusName : string),
    id_determines_name table ->
    statusName ∈ (StatusTypeMetadata.Name <$> table) ->
    exists id,
      getConfigStatusIDByName statusName (Some table) = Ret (id, None) /\
      getConfigStatusNameByID id (Some table) = Ret statusName /\
      forall name objectType schema def,
        getObjectAttributeByName name objectType schema = Ret def ->
        ObjectTypeAttributeScheme.Type_ def = 7 ->
        returnAttributePayloadValue name statusName objectType schema
          (Some table)
        = Ret (Some {| ObjectPayloadAttributeScheme.ObjectTypeAttributeID :=
                         ObjectTypeAttributeScheme.ID def;
                       ObjectPayloadAttributeScheme.ObjectAttributeValues :=
                         [Some {| ObjectPayloadAttributeValueScheme.Value := id |}] |},
               None) /\
        forall value search label rest,
          getAttributeValue
            (Some {| ObjectAttributeScheme.ObjectTypeAttribute := Some def;
                     ObjectAttributeScheme.ObjectAttributeValues :=
                       Some {| ObjectTypeAssetAttributeValueScheme.Value := value;
                               ObjectTypeAssetAttributeValueScheme.SearchValue := search;
                               ObjectTypeAssetAttributeValueScheme.Status :=
                                 Some {| ObjectTypeAssetAttributeStatusScheme.ID := id;
                                         ObjectTypeAssetAttributeStatusScheme.Name := label |} |}
                       :: rest |})
            (Some table)
          = Ret (statusName, None).
Proof.
  intros table statusName Hfun Hin.
  destruct (getConfigStatusIDByName_range_found _ _ Hin [])
    as (x & Hx & Hname & Hid).
  destruct (getConfigStatusNameByID_range_found _ _ Hx) as (y & Hy & Hxy & Hdec).
  assert (Hback : getConfigStatusNameByID_range (StatusTypeMetadata.ID x) table
                  = statusName).
  { rewrite Hdec, <- Hname. by apply Hfun. }
  exists (StatusTypeMetadata.ID x). split; [|split].
  - unfold getConfigStatusIDByName. simpl. by rewrite Hid.
  - unfold getConfigStatusNameByID. simpl. by rewrite Hback.
  - intros name objectType schema def Hdef Htype. split.
    + unfold returnAttributePayloadValue, getConfigStatusIDByName.
      rewrite Hdef. simpl. rewrite Htype. simpl. by rewrite Hid.
    + intros value search label rest.
      unfold getAttributeValue, getConfigStatusNameByID. simpl.
      rewrite Htype. simpl. by rewrite Hback.
Qed.

(** C2, counterexample: with two entries sharing the ID "1", the name
    "Disabled" of the table is encoded to "1", which decodes to
    "Enabled". *)
Lemma status_roundtrip_fails_on_shared_id :
  let table := [ {| StatusTypeMetadata.ID := "1";
                    StatusTypeMetadata.Name := "Enabled" |};
                 {| StatusTypeMetadata.ID := "1";
                    StatusTypeMetadata.Name := "Disabled" |} ] in
  "Disabled" ∈ (StatusTypeMetadata.Name <$> table) /\
  getConfigStatusIDByName "Disabled" (Some table) = Ret ("1", None) /\
  getConfigStatusNameByID "1" (Some table) = Ret "Enabled" /\
  "Enabled" <> "Disabled".
Proof.
  simpl. split; [|split; [|split]]; try reflexivity.
  - right. left.
  - discriminate.
Qed.

(** C3 (as amended): for an attribute definition of type code 0 or 1,
    the encoder passes the string v through as the single value of the
    payload record. The decoder, given the attribute record that carries
    this payload record, returns v for type code 0; for type code 1 it
    returns the search value of the record, which the payload does not
    carry, so that it returns v only when the remote system reports v as
    the search value. *)
Theorem plain_roundtrip :
  forall (name v objectType : string)
         (schema : list (ptr ObjectTypeAttributeScheme.t))
         (statusType : ptr (list StatusTypeMetadata.t))
         (def : ObjectTypeAttributeScheme.t) (search : string),
    getObjectAttributeByName name objectType schema = Ret def ->
    ObjectTypeAttributeScheme.Type_ def = 0 \/
    ObjectTypeAttributeScheme.Type_ def = 1 ->
    exists payload,
      returnAttributePayloadValue name v objectType schema statusType
      = Ret (Some payload, None) /\
      ObjectPayloadAttributeScheme.ObjectTypeAttributeID payload
      = ObjectTypeAttributeScheme.ID def /\
      ObjectPayloadAttributeScheme.ObjectAttributeValues payload
      = [Some {| ObjectPayloadAttributeValueScheme.Value := v |}] /\
      getAttributeValue (Some (storedRecord def payload search)) statusType
      = Ret (if Z.eqb (ObjectTypeAttributeScheme.Type_ def) 0
             then v else search,
             None).
Proof.
  intros name v objectType schema statusType def search Hdef Htype.
  eexists. split; [|split; [|split]].
  - unfold returnAttributePayloadValue. rewrite Hdef. simpl.
    by destruct Htype as [-> | ->].
  - reflexivity.
  - reflexivity.
  - unfold getAttributeValue, storedRecord. simpl.
    by destruct Htype as [-> | ->].
Qed.

(** C3, counterexample: the reference attribute "Owner" (type code 1)
    is encoded, for the value "HOST-7", to a payload record with that
    value; the attribute record that carries this payload record, and
    nothing else, is decoded to the empty string. *)
Lemma reference_roundtrip_loses_the_value :
  returnAttributePayloadValue "Owner" "HOST-7" "Host" [Some ex_owner]
    (Some ex_table)
  = Ret (Some ex_owner_payload, None) /\
  getAttributeValue (Some (storedRecord ex_owner ex_owner_payload ""))
    (Some ex_table)
  = Ret ("", None) /\
  "" <> "HOST-7".
Proof. split; [reflexivity|]. split; [reflexivity | discriminate]. Qed.

(** ** Properties of the encoding loop *)

Lemma payloadAttributes_ok (r : objectResource) (objectType : string)
    (elements : list (string * types.String)) :
  forall acc attrs,
    payloadAttributes r objectType elements acc = Ret (attrs, None) ->
    exists new, attrs = (acc ++ new)%list /\
                Forall2 (encodes r objectType) elements new.
Proof.
  induction elements as [|[k v] rest IH]; intros acc attrs H.
  - simpl in H. injection H as <-. exists []. by rewrite app_nil_r.
  - simpl in H.
    destruct (returnAttributePayloadValue k (types.ValueString v) objectType
                (objectSchemaAttributes r) (configStatusType r))
      as [[p [e|]]|] eqn:E; simpl in H; try discriminate.
    destruct (IH _ _ H) as (new & -> & Hnew).
    exists (p :: new). split; [by rewrite <- app_assoc|].
    constructor; [exact E | exact Hnew].
Qed.

Lemma payloadAttributes_complete (r : objectResource) (objectType : string)
    (elements : list (string * types.String)) :
  Forall (fun kv => exists p, encodes r objectType kv p) elements ->
  forall acc, exists attrs,
    payloadAttributes r objectType elements acc = Ret (attrs, None).
Proof.
  induction 1 as [|[k v] rest [p Hp] _ IH]; intros acc.
  - by exists acc.
  - simpl. unfold encodes in Hp. simpl in Hp. rewrite Hp. simpl. apply IH.
Qed.

(** The result of a successful encoding has one record with one value. *)
Lemma returnAttributePayloadValue_ok (name value objectType : string)
    (schema : list (ptr ObjectTypeAttributeScheme.t))
    (statusType : ptr (list StatusTypeMetadata.t))
    (p : ptr ObjectPayloadAttributeScheme.t) :
  returnAttributePayloadValue name value objectType schema statusType
  = Ret (p, None) ->
  exists def val,
    getObjectAttributeByName name objectType schema = Ret def /\
    p = Some {| ObjectPayloadAttributeScheme.ObjectTypeAttributeID :=
                  ObjectTypeAttributeScheme.ID def;
                ObjectPayloadAttributeScheme.ObjectAttributeValues :=
                  [Some {| ObjectPayloadAttributeValueScheme.Value := val |}] |} /\
    if Z.eqb (ObjectTypeAttributeScheme.Type_ def) 7
    then getConfigStatusIDByName value statusType = Ret (val, None)
    else val = value.
Proof.
  unfold returnAttributePayloadValue.
  destruct (getObjectAttributeByName name objectType schema) as [def|];
    [|discriminate].
  simpl. intros H. exists def.
  destruct (Z.eqb (ObjectTypeAttributeScheme.Type_ def) 7).
  - destruct (getConfigStatusIDByName value statusType) as [[val [e|]]|];
      simpl in H; try discriminate.
    injection H as <-. by exists val.
  - injection H as <-. by exists value.
Qed.

Lemma payloadAttributes_error (r : objectResource) (objectType : string)
    (elements : list (string * types.String)) :
  forall acc attrs e,
    payloadAttributes r objectType elements acc = Ret (attrs, Some e) ->
    exists k v p,
      (k, v) ∈ elements /\
      returnAttributePayloadValue k (types.ValueString v) objectType
        (objectSchemaAttributes r) (configStatusType r) = Ret (p, Some e).
Proof.
  induction elements as [|[k v] rest IH]; intros acc attrs e H.
  - discriminate.
  - simpl in H.
    destruct (returnAttributePayloadValue k (types.ValueString v) objectType
                (objectSchemaAttributes r) (configStatusType r))
      as [[p [e'|]]|] eqn:E; simpl in H; try discriminate.
    + injection H as <- <-. exists k, v, p. split; [left | exact E].
    + destruct (IH _ _ _ H) as (k' & v' & p' & Hin & Hrun).
      exists k', v', p'. split; [by right | exact Hrun].
Qed.

(** The only error of the encoder is the unknown-status error. *)
Lemma returnAttributePayloadValue_error (name value objectType : string)
    (schema : list (ptr ObjectTypeAttributeScheme.t))
    (statusType : ptr (list StatusTypeMetadata.t))
    (p : ptr ObjectPayloadAttributeScheme.t) (e : error) :
  returnAttributePayloadValue name value objectType schema statusType
  = Ret (p, Some e) ->
  p = None /\ args e = [] /\
  exists table,
    statusType = Some table /\
    format e = "unknown status, available statuses: "
               ++ strings_Join (StatusTypeMetadata.Name <$> table) ",".
Proof.
  unfold returnAttributePayloadValue.
  destruct (getObjectAttributeByName name objectType schema) as [def|];
    [|discriminate].
  simpl. destruct (Z.eqb (ObjectTypeAttributeScheme.Type_ def) 7);
    [|discriminate].
  destruct statusType as [table|]; [|discriminate].
  unfold getConfigStatusIDByName. simpl.
  destruct (getConfigStatusIDByName_range value table []) as [val [e'|]] eqn:E;
    [|discriminate].
  intros [= <- <-]. apply getConfigStatusIDByName_range_error in E.
  destruct E as (_ & Hargs & Hformat).
  split; [reflexivity|]. split; [exact Hargs|]. by exists table.
Qed.

(** A name that no definition carries resolves to the zero value. *)
Lemma getObjectAttributeByName_unresolved (objName objectType : string)
    (schema : list (ptr ObjectTypeAttributeScheme.t)) :
  typed_attributes schema ->
  (forall a, Some a ∈ schema -> ~ attribute_named objName objectType a) ->
  getObjectAttributeByName objName objectType schema
  = Ret ObjectTypeAttributeScheme.zero.
Proof.
  intros Hty Hnone.
  destruct (getObjectAttributeByName_first_match objName objectType schema Hty)
    as (r & Hr & [(i & Hi & HP & _) | [_ ->]]); [|exact Hr].
  exfalso. apply (Hnone r); [|exact HP].
  apply list_elem_of_lookup. by exists i.
Qed.

Lemma encodes_payload_record_of (r : objectResource) (objectType : string)
    (kv : string * types.String) (p : ptr ObjectPayloadAttributeScheme.t) :
  encodes r objectType kv p -> payload_record_of r objectType kv p.
Proof. apply returnAttributePayloadValue_ok. Qed.

Lemma encodable_encodes (r : objectResource) (objectType : string)
    (kv : string * types.String) :
  encodable r objectType kv -> exists p, encodes r objectType kv p.
Proof.
  intros (def & Hdef & Hstatus).
  unfold encodes, returnAttributePayloadValue. rewrite Hdef. simpl.
  destruct (Z.eqb_spec (ObjectTypeAttributeScheme.Type_ def) 7) as [E | E];
    [|by eexists].
  destruct (Hstatus E) as (table & -> & Hin).
  destruct (getConfigStatusIDByName_range_found _ _ Hin [])
    as (x & _ & _ & Hrun).
  unfold getConfigStatusIDByName. simpl. rewrite Hrun. by eexists.
Qed.

Section ControllerProperties.

Variable rangeMap : gmap string types.String -> list (string * types.String).
Hypothesis rangeMap_perm : forall m, rangeMap m ≡ₚ map_to_list m.

(** The remote calls of Update: none when the type lookup or the
    encoding loop panics or an encoding fails, otherwise the one update
    call. *)
Lemma Update_calls (r : objectResource) (req : Request) :
  calls (run (Update rangeMap r req)).1 =
  match getObjectTypeByName (types.ValueString (Type_ (Model req)))
          (objectSchemaTypes r) with
  | Ret ot =>
      match payloadAttributes r (ObjectTypeScheme.Name ot)
              (rangeMap (types.Elements (Attributes (Model req)))) [] with
      | Ret (attributes, None) =>
          [Object_Update (workspaceId r) (types.ValueString (Id (Model req)))
             {| ObjectPayloadScheme.ObjectTypeID := ObjectTypeScheme.Id ot;
                ObjectPayloadScheme.Attributes := attributes;
                ObjectPayloadScheme.HasAvatar :=
                  types.ValueBool (HasAvatar (Model req));
                ObjectPayloadScheme.AvatarUUID :=
                  types.ValueString (AvatarUuid (Model req)) |}]
      | _ => []
      end
  | Panic => []
  end.
Proof.
  unfold Update. unfold_M.
  destruct (getObjectTypeByName _ _) as [ot|]; [|reflexivity].
  destruct (payloadAttributes _ _ _ _) as [[attributes [e|]]|];
    [reflexivity | | reflexivity].
  destruct (assets.Update _ _ _ _) as [[object response] [err|]].
  - destruct response; reflexivity.
  - destruct object; reflexivity.
Qed.

(** The remote calls of Create, likewise. *)
Lemma Create_calls (r : objectResource) (req : Request) :
  calls (run (Create rangeMap r req)).1 =
  match getObjectTypeByName (types.ValueString (Type_ (Model req)))
          (objectSchemaTypes r) with
  | Ret ot =>
      match payloadAttributes r (ObjectTypeScheme.Name ot)
              (rangeMap (types.Elements (Attributes (Model req)))) [] with
      | Ret (attributes, None) =>
          [Object_Create (workspaceId r)
             {| ObjectPayloadScheme.ObjectTypeID := ObjectTypeScheme.Id ot;
                ObjectPayloadScheme.Attributes := attributes;
                ObjectPayloadScheme.HasAvatar :=
                  types.ValueBool (HasAvatar (Model req));
                ObjectPayloadScheme.AvatarUUID :=
                  types.ValueString (AvatarUuid (Model req)) |}]
      | _ => []
      end
  | Panic => []
  end.
Proof.
  unfold Create. unfold_M.
  destruct (getObjectTypeByName _ _) as [ot|]; [|reflexivity].
  destruct (payloadAttributes _ _ _ _) as [[attributes [e|]]|];
    [reflexivity | | reflexivity].
  destruct (assets.Create _ _ _) as [[object response] [err|]].
  - destruct response; reflexivity.
  - destruct object; reflexivity.
Qed.

Lemma rangeMap_elem (m : gmap string types.String) (k : string)
    (v : types.String) :
  (k, v) ∈ rangeMap m <-> m !! k = Some v.
Proof. rewrite rangeMap_perm. apply elem_of_map_to_list. Qed.

(** C5: whatever Update does, it issues no remote delete; the remote
    calls it issues are either none (the type lookup or an encoding
    panicked, or an encoding failed) or the single update call, whose
    payload holds exactly one attribute record per entry of the desired
    map and nothing else: each is a non-nil record keyed by the ID of
    the attribute definition the name of its entry resolves to, with a
    single value (the status ID for type code 7, the desired value
    otherwise); and when every entry can be encoded the update call is
    issued. *)
Theorem Update_sends_exactly_the_desired_attributes :
  forall (r : objectResource) (req : Request),
    let plan := Model req in
    let elems := types.Elements (Attributes plan) in
    let sent := calls (run (Update rangeMap r req)).1 in
    (forall workspaceId id, Object_Delete workspaceId id ∉ sent) /\
    (sent = [] \/
     exists ot order attributes,
       getObjectTypeByName (types.ValueString (Type_ plan))
         (objectSchemaTypes r) = Ret ot /\
       order ≡ₚ map_to_list elems /\
       Forall2 (payload_record_of r (ObjectTypeScheme.Name ot))
         order attributes /\
       length attributes = size elems /\
       sent = [Object_Update (workspaceId r) (types.ValueString (Id plan))
                 {| ObjectPayloadScheme.ObjectTypeID := ObjectTypeScheme.Id ot;
                    ObjectPayloadScheme.Attributes := attributes;
                    ObjectPayloadScheme.HasAvatar :=
                      types.ValueBool (HasAvatar plan);
                    ObjectPayloadScheme.AvatarUUID :=
                      types.ValueString (AvatarUuid plan) |}]) /\
    (forall ot,
       getObjectTypeByName (types.ValueString (Type_ plan))
         (objectSchemaTypes r) = Ret ot ->
       (forall k v, elems !! k = Some v ->
                    encodable r (ObjectTypeScheme.Name ot) (k, v)) ->
       sent <> []).
Proof.
  intros r req plan elems sent. subst sent. rewrite Update_calls.
  fold plan. fold elems.
  destruct (getObjectTypeByName _ _) as [ot|].
  2:{ split; [intros ws id H; inversion H|]. split; [by left|]. discriminate. }
  destruct (payloadAttributes r (ObjectTypeScheme.Name ot) (rangeMap elems) [])
    as [[attributes [e|]]|] eqn:E.
  - split; [intros ws id H; inversion H|]. split; [by left|].
    intros ot' [= <-] Hall.
    destruct (payloadAttributes_complete r (ObjectTypeScheme.Name ot)
                (rangeMap elems)) with (acc := @nil (ptr ObjectPayloadAttributeScheme.t))
      as [attrs Hattrs]; [|congruence].
    apply Forall_forall. intros [k v] Hkv. apply encodable_encodes, Hall.
    by apply rangeMap_elem.
  - split.
    { intros ws id H. apply list_elem_of_singleton in H. discriminate. }
    split; [|discriminate].
    right. destruct (payloadAttributes_ok _ _ _ _ _ E) as (new & -> & Hnew).
    exists ot, (rangeMap elems), new. split; [reflexivity|].
    split; [apply rangeMap_perm|]. split; [|split; [|reflexivity]].
    + eapply Forall2_impl; [exact Hnew|]. intros kv p.
      apply encodes_payload_record_of.
    + simpl. rewrite <- (Forall2_length _ _ _ Hnew), rangeMap_perm.
      apply length_map_to_list.
  - split; [intros ws id H; inversion H|]. split; [by left|].
    intros ot' [= <-] Hall.
    destruct (payloadAttributes_complete r (ObjectTypeScheme.Name ot)
                (rangeMap elems)) with (acc := @nil (ptr ObjectPayloadAttributeScheme.t))
      as [attrs Hattrs]; [|congruence].
    apply Forall_forall. intros [k v] Hkv. apply encodable_encodes, Hall.
    by apply rangeMap_elem.
Qed.

(** C6: a successful encoding of (name, value) yields exactly one
    payload attribute record, keyed by the ID of the resolved attribute
    definition and carrying a single value (the status ID for type code
    7, the value itself otherwise). For the object type "Host" with the
    attribute "Status" of type code 7 and the status table
    [{1, Enabled}; {2, Disabled}], encoding ("Status", "Enabled") yields
    the record {ObjectTypeAttributeID: Status's ID, Value: "1"}, and
    Create with the attributes {"Status": "Enabled"} sends it. *)
Theorem encode_yields_one_record :
  (forall name value objectType schema statusType p,
     returnAttributePayloadValue name value objectType schema statusType
     = Ret (p, None) ->
     exists def val,
       getObjectAttributeByName name objectType schema = Ret def /\
       p = Some {| ObjectPayloadAttributeScheme.ObjectTypeAttributeID :=
                     ObjectTypeAttributeScheme.ID def;
                   ObjectPayloadAttributeScheme.ObjectAttributeValues :=
                     [Some {| ObjectPayloadAttributeValueScheme.Value := val |}] |} /\
       if Z.eqb (ObjectTypeAttributeScheme.Type_ def) 7
       then getConfigStatusIDByName value statusType = Ret (val, None)
       else val = value) /\
  (forall hostID statusID : string,
     let host := {| ObjectTypeScheme.Id := hostID;
                    ObjectTypeScheme.Name := "Host" |} in
     let schema :=
       [Some {| ObjectTypeAttributeScheme.ID := statusID;
                ObjectTypeAttributeScheme.ObjectType := Some host;
                ObjectTypeAttributeScheme.Name := "Status";
                ObjectTypeAttributeScheme.Type_ := 7 |}] in
     let table :=
       Some [ {| StatusTypeMetadata.ID := "1";
                 StatusTypeMetadata.Name := "Enabled" |};
              {| StatusTypeMetadata.ID := "2";
                 StatusTypeMetadata.Name := "Disabled" |} ] in
     let record :=
       Some {| ObjectPayloadAttributeScheme.ObjectTypeAttributeID := statusID;
               ObjectPayloadAttributeScheme.ObjectAttributeValues :=
                 [Some {| ObjectPayloadAttributeValueScheme.Value := "1" |}] |} in
     returnAttributePayloadValue "Status" "Enabled" "Host" schema table
     = Ret (record, None) /\
     forall cl ws sid ignored plan,
       Type_ plan = types.StringValue "Host" ->
       Attributes plan
       = types.MapValue {[ "Status" := types.StringValue "Enabled" ]} ->
       calls (run (Create rangeMap
                     (mkResource cl ws sid ignored [Some host] schema table)
                     (mkRequest plan))).1
       = [Object_Create ws
            {| ObjectPayloadScheme.ObjectTypeID := hostID;
               ObjectPayloadScheme.Attributes := [record];
               ObjectPayloadScheme.HasAvatar := types.ValueBool (HasAvatar plan);
               ObjectPayloadScheme.AvatarUUID :=
                 types.ValueString (AvatarUuid plan) |}]).
Proof.
  split; [apply returnAttributePayloadValue_ok|].
  intros hostID statusID host schema table record.
  split; [reflexivity|].
  intros cl ws sid ignored plan Htype Hattrs.
  rewrite Create_calls. simpl. rewrite Htype, Hattrs. simpl.
  assert (Hrange : rangeMap {[ "Status" := types.StringValue "Enabled" ]}
                   = [("Status", types.StringValue "Enabled")]).
  { apply Permutation_singleton_r. rewrite rangeMap_perm.
    by rewrite map_to_list_singleton. }
  rewrite Hrange. reflexivity.
Qed.

(** C1 (as amended): when the planned attribute map of a Create holds a
    name that no attribute definition of the resource's object type
    carries (the cached definitions being non-nil and typed), no
    schema-resolution error is raised: the name is encoded as a payload
    attribute record with an empty ObjectTypeAttributeID carrying the
    planned value; the only error the encoding of the map can raise is
    the unknown-status error; and when the map is encoded without error
    the remote create call is issued with that record in its payload. *)
Theorem Create_sends_unresolved_name :
  forall (r : objectResource) (req : Request) (name : string)
         (v : types.String) (ot : ObjectTypeScheme.t),
    let plan := Model req in
    let elems := types.Elements (Attributes plan) in
    let record :=
      Some {| ObjectPayloadAttributeScheme.ObjectTypeAttributeID := "";
              ObjectPayloadAttributeScheme.ObjectAttributeValues :=
                [Some {| ObjectPayloadAttributeValueScheme.Value :=
                           types.ValueString v |}] |} in
    getObjectTypeByName (types.ValueString (Type_ plan)) (objectSchemaTypes r)
    = Ret ot ->
    elems !! name = Some v ->
    typed_attributes (objectSchemaAttributes r) ->
    (forall a, Some a ∈ objectSchemaAttributes r ->
               ~ attribute_named name (ObjectTypeScheme.Name ot) a) ->
    encodes r (ObjectTypeScheme.Name ot) (name, v) record /\
    (forall attributes e,
       payloadAttributes r (ObjectTypeScheme.Name ot) (rangeMap elems) []
       = Ret (attributes, Some e) ->
       exists table,
         configStatusType r = Some table /\
         e = Errorf ("unknown status, available statuses: "
                     ++ strings_Join (StatusTypeMetadata.Name <$> table) ",")
               []) /\
    (forall attributes,
       payloadAttributes r (ObjectTypeScheme.Name ot) (rangeMap elems) []
       = Ret (attributes, None) ->
       record ∈ attributes /\
       calls (run (Create rangeMap r req)).1
       = [Object_Create (workspaceId r)
            {| ObjectPayloadScheme.ObjectTypeID := ObjectTypeScheme.Id ot;
               ObjectPayloadScheme.Attributes := attributes;
               ObjectPayloadScheme.HasAvatar := types.ValueBool (HasAvatar plan);
               ObjectPayloadScheme.AvatarUUID :=
                 types.ValueString (AvatarUuid plan) |}]).
Proof.
  intros r req name v ot plan elems record Hot Hv Hty Hnone.
  assert (Henc : encodes r (ObjectTypeScheme.Name ot) (name, v) record).
  { unfold encodes, returnAttributePayloadValue. simpl.
    by rewrite (getObjectAttributeByName_unresolved _ _ _ Hty Hnone). }
  split; [exact Henc|]. split.
  - intros attributes e H.
    apply payloadAttributes_error in H as (k & w & p & _ & H).
    apply returnAttributePayloadValue_error in H
      as (_ & Hargs & table & Htable & Hformat).
    exists table. split; [exact Htable|].
    destruct e as [f a]. simpl in *. by subst.
  - intros attributes H. split.
    + apply payloadAttributes_ok in H as (new & -> & Hnew). simpl.
      assert (Hin : (name, v) ∈ rangeMap elems) by by apply rangeMap_elem.
      apply list_elem_of_lookup in Hin as [i Hi].
      destruct (Forall2_lookup_l _ _ _ _ _ Hnew Hi) as (p & Hp & Hpenc).
      unfold encodes in Henc, Hpenc. rewrite Henc in Hpenc.
      injection Hpenc as <-. apply list_elem_of_lookup. by exists i.
    + rewrite Create_calls. fold plan. fold elems. by rewrite Hot, H.
Qed.

End ControllerProperties.

(** ** Properties of Read *)

Lemma slices_Contains_true (s : list string) (v : string) :
  slices_Contains s v = true <-> v ∈ s.
Proof.
  induction s as [|x rest IH]; simpl.
  - split; [discriminate | intros H; inversion H].
  - destruct (String.eqb x v) eqn:E.
    + apply eqb_true in E as ->. split; [intros _; left | reflexivity].
    + apply eqb_false in E. rewrite IH, elem_of_cons. split.
      * intros H. by right.
      * intros [-> | H]; [done | exact H].
Qed.

Lemma slices_Contains_false (s : list string) (v : string) :
  slices_Contains s v = false <-> v ∉ s.
Proof.
  rewrite <- slices_Contains_true.
  destruct (slices_Contains s v); split; congruence.
Qed.

(** One step of the loop of Read on a well-formed record. *)
Lemma readAttributes_cons (r : objectResource) (a : ObjectAttributeScheme.t)
    (ota : ObjectTypeAttributeScheme.t)
    (rest : list (ptr ObjectAttributeScheme.t))
    (attributes : gmap string string) :
  ObjectAttributeScheme.ObjectTypeAttribute a = Some ota ->
  readAttributes r (Some a :: rest) attributes =
  if slices_Contains (ignore_keys r) (ObjectTypeAttributeScheme.Name ota)
  then readAttributes r rest attributes
  else
    '(v, _) ← getAttributeValue (Some a) (configStatusType r);
    readAttributes r rest
      (<[ObjectTypeAttributeScheme.Name ota := v]> attributes).
Proof.
  intros Hota. unfold ignore_keys.
  cbn [readAttributes deref mbind go_mbind go_bind]. rewrite Hota.
  unfold mbind, go_mbind. cbn [deref go_bind].
  by destruct (slices_Contains _ _).
Qed.

(** A loop that returns has met only non-nil records with a non-nil
    attribute definition. *)
Lemma readAttributes_cons_inv (r : objectResource)
    (p : ptr ObjectAttributeScheme.t)
    (rest : list (ptr ObjectAttributeScheme.t))
    (attributes m : gmap string string) :
  readAttributes r (p :: rest) attributes = Ret m ->
  exists a ota, p = Some a /\
                ObjectAttributeScheme.ObjectTypeAttribute a = Some ota.
Proof.
  destruct p as [a|]; [|discriminate]. simpl.
  destruct (ObjectAttributeScheme.ObjectTypeAttribute a) as [ota|] eqn:E;
    [|discriminate].
  intros _. by exists a, ota.
Qed.

Lemma readAttributes_dom (r : objectResource)
    (attrs : list (ptr ObjectAttributeScheme.t)) :
  forall attributes m,
    readAttributes r attrs attributes = Ret m ->
    forall name,
      name ∈ dom m <->
      name ∈ dom attributes \/
      (remote_name attrs name /\ name ∉ ignore_keys r).
Proof.
  induction attrs as [|p rest IH]; intros attributes m H name.
  - injection H as <-. split; [by left|].
    intros [Hin | [(a & ota & Ha & _) _]]; [exact Hin | inversion Ha].
  - destruct (readAttributes_cons_inv _ _ _ _ _ H) as (a & ota & -> & Hota).
    rewrite (readAttributes_cons _ _ _ _ _ Hota) in H.
    assert (Hhead : forall n, remote_name (Some a :: rest) n <->
                              n = ObjectTypeAttributeScheme.Name ota \/
                              remote_name rest n).
    { intros n. split.
      - intros (b & otb & Hb & Hotb & Hn).
        apply elem_of_cons in Hb as [[= <-] | Hb].
        + left. rewrite Hota in Hotb. by injection Hotb as <-.
        + right. by exists b, otb.
      - intros [-> | (b & otb & Hb & Hotb & Hn)].
        + exists a, ota. split; [left | done].
        + exists b, otb. split; [by right | done]. }
    rewrite Hhead.
    destruct (slices_Contains (ignore_keys r)
                (ObjectTypeAttributeScheme.Name ota)) eqn:E.
    + apply slices_Contains_true in E. rewrite (IH _ _ H).
      intuition congruence.
    + apply slices_Contains_false in E.
      destruct (getAttributeValue (Some a) (configStatusType r))
        as [[v e]|]; [|discriminate].
      simpl in H. rewrite (IH _ _ H), dom_insert_L, elem_of_union,
        elem_of_singleton. intuition congruence.
Qed.

(** Records whose name differs from [name] leave its entry alone. *)
Lemma readAttributes_other (r : objectResource)
    (attrs : list (ptr ObjectAttributeScheme.t)) (name : string) :
  ~ remote_name attrs name ->
  forall attributes m,
    readAttributes r attrs attributes = Ret m ->
    m !! name = attributes !! name.
Proof.
  induction attrs as [|p rest IH]; intros Hno attributes m H.
  - by injection H as <-.
  - destruct (readAttributes_cons_inv _ _ _ _ _ H) as (a & ota & -> & Hota).
    rewrite (readAttributes_cons _ _ _ _ _ Hota) in H.
    assert (Hne : ObjectTypeAttributeScheme.Name ota <> name).
    { intros Heq. apply Hno. exists a, ota. split; [left | done]. }
    assert (Hrest : ~ remote_name rest name).
    { intros (b & otb & Hb & Hrest). apply Hno. exists b, otb.
      split; [by right | done]. }
    destruct (slices_Contains (ignore_keys r) _); [by apply IH|].
    destruct (getAttributeValue (Some a) (configStatusType r))
      as [[v e]|]; [|discriminate].
    simpl in H. rewrite (IH Hrest _ _ H). by apply lookup_insert_ne.
Qed.

Lemma readAttributes_app (r : objectResource)
    (l1 l2 : list (ptr ObjectAttributeScheme.t)) :
  forall attributes,
    readAttributes r (l1 ++ l2) attributes =
    go_bind (readAttributes r l2) (readAttributes r l1 attributes).
Proof.
  induction l1 as [|p rest IH]; intros attributes; [reflexivity|].
  destruct p as [a|]; [|reflexivity]. simpl.
  destruct (ObjectAttributeScheme.ObjectTypeAttribute a) as [ota|];
    [|reflexivity].
  simpl. destruct (negb _); [|apply IH].
  destruct (getAttributeValue (Some a) (configStatusType r)) as [[v e]|];
    [|reflexivity].
  simpl. apply IH.
Qed.

(** What a Read that sets the state has done. *)
Lemma Read_success (r : objectResource) (req : Request)
    (tr : list Event) (resp : Response) (st : objectResourceModel) :
  run (Read r req) = (tr, Ret resp) ->
  State resp = Some st ->
  let id := types.ValueString (Id (Model req)) in
  exists object response attrs response' attributes objectType,
    assets.Get (client r) (workspaceId r) id = (Some object, response, None) /\
    assets.Attributes (client r) (workspaceId r) id = (attrs, response', None) /\
    readAttributes r attrs ∅ = Ret attributes /\
    ObjectScheme.ObjectType object = Some objectType /\
    tr = [Call (Object_Get (workspaceId r) id);
          Call (Object_Attributes (workspaceId r) id)] /\
    Diagnostics resp = [] /\
    st = {| Attributes := types.MapValueFrom attributes;
            WorkspaceId := types.StringValue (ObjectScheme.WorkspaceId object);
            GlobalId := types.StringValue (ObjectScheme.GlobalId object);
            Id := types.StringValue (ObjectScheme.ID object);
            Label := types.StringValue (ObjectScheme.Label object);
            ObjectKey := types.StringValue (ObjectScheme.ObjectKey object);
            HasAvatar := types.BoolValue (ObjectScheme.HasAvatar object);
            Type_ := types.StringValue (ObjectTypeScheme.Name objectType);
            Created := Created (Model req);
            Updated := Updated (Model req);
            AvatarUuid := AvatarUuid (Model req) |}.
Proof.
  unfold Read. unfold_M. intros H Hst.
  destruct (assets.Get _ _ _) as [[object response] [err|]].
  { destruct response; simpl in H; injection H as <- <-; discriminate. }
  destruct (assets.Attributes _ _ _) as [[attrs response'] [err|]].
  { destruct response'; simpl in H; injection H as <- <-; discriminate. }
  destruct (readAttributes r attrs ∅) as [attributes|] eqn:Hloop;
    [|discriminate].
  destruct object as [object|]; [|discriminate]. simpl in H.
  destruct (ObjectScheme.ObjectType object) as [objectType|] eqn:E;
    [|discriminate].
  simpl in H. injection H as <- <-. simpl in Hst. injection Hst as <-.
  by exists object, response, attrs, response', attributes, objectType.
Qed.

Lemma Elements_MapValueFrom_dom (m : gmap string string) :
  dom (types.Elements (types.MapValueFrom m)) = dom m.
Proof. simpl. apply dom_fmap_L. Qed.

Lemma Elements_MapValueFrom_lookup (m : gmap string string) (k : string) :
  types.Elements (types.MapValueFrom m) !! k = types.StringValue <$> m !! k.
Proof. simpl. apply lookup_fmap. Qed.

(** C4: after a Read that sets the state, the names of the rebuilt
    attribute map are exactly the names of the attribute records the
    remote API returned that are neither a configured ignore-key nor
    one of "Created", "Key" and "Updated". *)
Theorem Read_excludes_exactly_the_ignored_names :
  forall (r : objectResource) (req : Request) (tr : list Event)
         (resp : Response) (st : objectResourceModel),
    run (Read r req) = (tr, Ret resp) ->
    State resp = Some st ->
    exists attrs response,
      assets.Attributes (client r) (workspaceId r)
        (types.ValueString (Id (Model req))) = (attrs, response, None) /\
      forall name,
        name ∈ dom (types.Elements (Attributes st)) <->
        remote_name attrs name /\
        name ∉ (["Created"; "Key"; "Updated"] ++ ignoreKeys r)%list.
Proof.
  intros r req tr resp st Hrun Hst.
  destruct (Read_success _ _ _ _ _ Hrun Hst)
    as (object & response & attrs & response' & attributes & objectType
        & _ & Hattrs & Hloop & _ & _ & _ & ->).
  exists attrs, response'. split; [exact Hattrs|].
  intros name. cbn [Attributes]. rewrite Elements_MapValueFrom_dom.
  rewrite (readAttributes_dom _ _ _ _ Hloop name), dom_empty_L.
  fold (ignore_keys r). split.
  - intros [H | H]; [by apply not_elem_of_empty in H | exact H].
  - intros H. by right.
Qed.

(** C8 (as amended): during a Read that sets the state, a remote
    attribute whose decoding returns an error, and whose name is not
    ignored, is not skipped: its name is in the rebuilt attribute map,
    with the empty string as its value unless a later record of the same
    name overwrites it; the error is dropped without a log line or a
    diagnostic, and Read goes on with the remaining attributes. *)
Theorem Read_keeps_undecodable_attribute :
  forall (r : objectResource) (req : Request) (tr : list Event)
         (resp : Response) (st : objectResourceModel)
         (response : ptr ResponseScheme.t)
         (before after : list (ptr ObjectAttributeScheme.t))
         (a : ObjectAttributeScheme.t) (ota : ObjectTypeAttributeScheme.t)
         (s : string) (e : error),
    let id := types.ValueString (Id (Model req)) in
    let name := ObjectTypeAttributeScheme.Name ota in
    run (Read r req) = (tr, Ret resp) ->
    State resp = Some st ->
    assets.Attributes (client r) (workspaceId r) id
    = ((before ++ Some a :: after)%list, response, None) ->
    ObjectAttributeScheme.ObjectTypeAttribute a = Some ota ->
    getAttributeValue (Some a) (configStatusType r) = Ret (s, Some e) ->
    name ∉ ignore_keys r ->
    name ∈ dom (types.Elements (Attributes st)) /\
    (~ remote_name after name ->
     types.Elements (Attributes st) !! name = Some (types.StringValue "")) /\
    tr = [Call (Object_Get (workspaceId r) id);
          Call (Object_Attributes (workspaceId r) id)] /\
    Diagnostics resp = [].
Proof.
  intros r req tr resp st response before after a ota s e id name
    Hrun Hst Hattrs Hota Hdec Hkeep.
  destruct (Read_success _ _ _ _ _ Hrun Hst)
    as (object & response0 & attrs & response' & attributes & objectType
        & _ & Hattrs' & Hloop & _ & Htr & Hdiag & ->).
  fold id in Hattrs', Htr. rewrite Hattrs in Hattrs'.
  injection Hattrs' as <- _.
  split; [|split; [|by split]].
  - cbn [Attributes]. rewrite Elements_MapValueFrom_dom.
    apply (readAttributes_dom _ _ _ _ Hloop). right. split; [|exact Hkeep].
    exists a, ota. split; [|done]. apply elem_of_app. right. left.
  - intros Hlast. cbn [Attributes]. rewrite Elements_MapValueFrom_lookup.
    rewrite readAttributes_app in Hloop.
    destruct (readAttributes r before ∅) as [m1|]; [|discriminate].
    cbn [go_bind] in Hloop.
    rewrite (readAttributes_cons _ _ _ _ _ Hota) in Hloop.
    apply slices_Contains_false in Hkeep. fold name in Hloop.
    rewrite Hkeep, Hdec in Hloop. simpl in Hloop.
    rewrite (readAttributes_other _ _ _ Hlast _ _ Hloop).
    rewrite lookup_insert_eq. simpl.
    by rewrite (getAttributeValue_error_empty _ _ _ _ Hdec).
Qed.

(** The fields a Read that sets the state takes from the remote object,
    and the three it leaves as they were. *)
Lemma Read_refreshed_fields (r : objectResource) (req : Request)
    (tr : list Event) (resp : Response) (st : objectResourceModel) :
  run (Read r req) = (tr, Ret resp) ->
  State resp = Some st ->
  exists object response,
    assets.Get (client r) (workspaceId r) (types.ValueString (Id (Model req)))
    = (Some object, response, None) /\
    WorkspaceId st = types.StringValue (ObjectScheme.WorkspaceId object) /\
    GlobalId st = types.StringValue (ObjectScheme.GlobalId object) /\
    Id st = types.StringValue (ObjectScheme.ID object) /\
    Label st = types.StringValue (ObjectScheme.Label object) /\
    ObjectKey st = types.StringValue (ObjectScheme.ObjectKey object) /\
    HasAvatar st = types.BoolValue (ObjectScheme.HasAvatar object) /\
    Created st = Created (Model req) /\
    Updated st = Updated (Model req) /\
    AvatarUuid st = AvatarUuid (Model req).
Proof.
  intros Hrun Hst.
  destruct (Read_success _ _ _ _ _ Hrun Hst)
    as (object & response & attrs & response' & attributes & objectType
        & Hget & _ & _ & _ & _ & _ & ->).
  exists object, response. by split.
Qed.

(** The order of [map_to_list] is one of the orders [range] may take. *)
Lemma map_to_list_perm (m : gmap string types.String) :
  map_to_list m ≡ₚ map_to_list m.
Proof. reflexivity. Defined.

(** Facts about the instance. *)
Lemma ex_schema_typed : typed_attributes ex_schema.
Proof.
  intros p Hp. unfold ex_schema in Hp. list_cases Hp; subst p.
  - by exists ex_status, ex_host.
  - by exists ex_ips, ex_host.
Defined.

Lemma ex_nope_unresolved :
  forall a, Some a ∈ objectSchemaAttributes ex_resource ->
            ~ attribute_named "Nope" "Host" a.
Proof.
  intros a Ha [Hname _]. simpl in Ha. unfold ex_schema in Ha.
  list_cases Ha; injection Ha as ->; discriminate.
Defined.

Lemma ex_read_run :
  run (Read ex_resource ex_state)
  = (ex_read_trace, Ret (mkResponse [] (Some ex_refreshed))).
Proof. vm_compute. reflexivity. Defined.

(** C9, at the failing input: the state of object 55 holds a null
    Created and the Updated time of an earlier refresh; the remote
    object returned to Read carries other values, and the state Read
    sets still holds the old ones. *)
Theorem Read_leaves_Created_and_Updated_stale :
  assets.Get (client ex_resource) "ws" "55" = (Some ex_object, None, None) /\
  exists tr st,
    run (Read ex_resource ex_state) = (tr, Ret (mkResponse [] (Some st))) /\
    Created st = types.StringNull /\
    Created st <> types.StringValue (ObjectScheme.Created ex_object) /\
    Updated st = types.StringValue "2025-01-01T00:00:00Z" /\
    Updated st <> types.StringValue (ObjectScheme.Updated ex_object).
Proof.
  split; [reflexivity|].
  exists ex_read_trace, ex_refreshed. split; [apply ex_read_run|].
  repeat split; discriminate.
Qed.

(** C1, counterexample: the plan holds the name "Nope", which no
    attribute definition of "Host" carries; Create raises no error and
    sends the name to the remote system as a record with an empty
    attribute ID. *)
Lemma Create_unresolved_name_reaches_remote :
  (forall a, Some a ∈ objectSchemaAttributes ex_resource ->
             ~ attribute_named "Nope" "Host" a) /\
  (run (Create map_to_list ex_resource
          (ex_plan {[ "Nope" := types.StringValue "x" ]}))).1
  = [Call (Object_Create "ws"
             {| ObjectPayloadScheme.ObjectTypeID := "10";
                ObjectPayloadScheme.Attributes :=
                  [Some {| ObjectPayloadAttributeScheme.ObjectTypeAttributeID := "";
                           ObjectPayloadAttributeScheme.ObjectAttributeValues :=
                             [Some {| ObjectPayloadAttributeValueScheme.Value := "x" |}] |}];
                ObjectPayloadScheme.HasAvatar := false;
                ObjectPayloadScheme.AvatarUUID := "" |})] /\
  exists resp,
    (run (Create map_to_list ex_resource
            (ex_plan {[ "Nope" := types.StringValue "x" ]}))).2 = Ret resp /\
    Diagnostics resp = [].
Proof.
  split; [|split].
  - apply ex_nope_unresolved.
  - vm_compute. reflexivity.
  - eexists. split; [vm_compute; reflexivity | reflexivity].
Qed.

(** C8, counterexample: the remote answer holds the attribute
    "Location" of type code 2, whose decoding returns an error; the map
    Read rebuilds holds "Location" with an empty value, and the trace of
    Read holds no log line. *)
Lemma Read_undecodable_attribute_not_skipped :
  Some ex_location_record ∈ ex_records /\
  getAttributeValue (Some ex_location_record) (configStatusType ex_resource)
  = Ret ("", Some (Errorf "unsupported attribute type: %d" [2])) /\
  run (Read ex_resource ex_state)
  = (ex_read_trace, Ret (mkResponse [] (Some ex_refreshed))) /\
  types.Elements (Attributes ex_refreshed) !! "Location"
  = Some (types.StringValue "").
Proof.
  split; [|split; [|split]].
  - unfold ex_records. apply elem_of_app. right. left.
  - reflexivity.
  - apply ex_read_run.
  - vm_compute. reflexivity.
Qed.

(** ** The theorems at the worked instance *)

(** The lookups on the schema of "Host". *)
Lemma lookups_first_match_or_zero_witness :
  (exists r, getObjectTypeByName "Host" [Some ex_host] = Ret r /\
             first_match (fun o => ObjectTypeScheme.Name o = "Host")
               [Some ex_host] ObjectTypeScheme.zero r) /\
  (exists r, getObjectAttributeByName "Status" "Host" ex_schema = Ret r /\
             first_match (attribute_named "Status" "Host")
               ex_schema ObjectTypeAttributeScheme.zero r).
Proof.
  apply (lookups_first_match_or_zero "Host" "Status" "Host" [Some ex_host]
           ex_schema).
  - intros p Hp. list_cases Hp. by subst p.
  - apply ex_schema_typed.
Defined.

(** A text attribute without a value makes the decoder panic. *)
Lemma getAttributeValue_reads_first_value_witness :
  getAttributeValue
    (Some {| ObjectAttributeScheme.ObjectTypeAttribute := Some ex_ips;
             ObjectAttributeScheme.ObjectAttributeValues := [] |})
    (Some ex_table) = Panic.
Proof.
  apply (proj1 (getAttributeValue_reads_first_value ex_ips [] (Some ex_table))).
  - left. reflexivity.
  - reflexivity.
Defined.

(** "Enabled" survives the round trip through the table of the instance. *)
Lemma status_roundtrip_witness :
  exists id,
    getConfigStatusIDByName "Enabled" (Some ex_table) = Ret (id, None) /\
    getConfigStatusNameByID id (Some ex_table) = Ret "Enabled".
Proof.
  destruct (status_roundtrip ex_table "Enabled") as (id & Henc & Hdec & _).
  - intros a b Ha Hb Hid. unfold ex_table in Ha, Hb.
    list_cases Ha; list_cases Hb; subst a b; try reflexivity; discriminate.
  - left.
  - exists id. split; [exact Henc | exact Hdec].
Defined.

(** The text attribute "external_ips" comes back as it was sent. *)
Lemma plain_roundtrip_witness :
  exists payload,
    returnAttributePayloadValue "external_ips" "1.2.3.4" "Host" ex_schema
      (Some ex_table)
    = Ret (Some payload, None) /\
    ObjectPayloadAttributeScheme.ObjectTypeAttributeID payload = "135" /\
    ObjectPayloadAttributeScheme.ObjectAttributeValues payload
    = [Some {| ObjectPayloadAttributeValueScheme.Value := "1.2.3.4" |}] /\
    getAttributeValue (Some (storedRecord ex_ips payload "")) (Some ex_table)
    = Ret ("1.2.3.4", None).
Proof.
  apply (plain_roundtrip "external_ips" "1.2.3.4" "Host" ex_schema
           (Some ex_table) ex_ips "" eq_refl (or_introl eq_refl)).
Defined.

(** Create of a "Host" with the status "Enabled". *)
Lemma encode_yields_one_record_witness :
  calls (run (Create map_to_list
                (mkResource ex_client "ws" "1" ["CI Class"] [Some ex_host]
                   [Some ex_status] (Some ex_table))
                (ex_plan {[ "Status" := types.StringValue "Enabled" ]}))).1
  = [Object_Create "ws"
       {| ObjectPayloadScheme.ObjectTypeID := "10";
          ObjectPayloadScheme.Attributes :=
            [Some {| ObjectPayloadAttributeScheme.ObjectTypeAttributeID := "134";
                     ObjectPayloadAttributeScheme.ObjectAttributeValues :=
                       [Some {| ObjectPayloadAttributeValueScheme.Value := "1" |}] |}];
          ObjectPayloadScheme.HasAvatar := false;
          ObjectPayloadScheme.AvatarUUID := "" |}].
Proof.
  apply (proj2 (proj2 (encode_yields_one_record map_to_list map_to_list_perm)
                  "10" "134")
           ex_client "ws" "1" ["CI Class"]
           (Model (ex_plan {[ "Status" := types.StringValue "Enabled" ]}))).
  - reflexivity.
  - reflexivity.
Defined.

(** Update of a "Host" to the status "Disabled" reaches the remote system. *)
Lemma Update_sends_exactly_the_desired_attributes_witness :
  calls (run (Update map_to_list ex_resource
                (ex_plan {[ "Status" := types.StringValue "Disabled" ]}))).1
  <> [].
Proof.
  apply (proj2 (proj2 (Update_sends_exactly_the_desired_attributes
                         map_to_list map_to_list_perm ex_resource
                         (ex_plan {[ "Status" := types.StringValue "Disabled" ]})))
           ex_host).
  - reflexivity.
  - intros k v Hkv. cbn [types.Elements Attributes Model ex_plan] in Hkv.
    apply lookup_singleton_Some in Hkv as [<- <-].
    exists ex_status. split; [reflexivity|]. intros _.
    exists ex_table. split; [reflexivity|]. right. left.
Defined.

(** The unknown name "Nope" is encoded with an empty attribute ID. *)
Lemma Create_sends_unresolved_name_witness :
  encodes ex_resource "Host" ("Nope", types.StringValue "x")
    (Some {| ObjectPayloadAttributeScheme.ObjectTypeAttributeID := "";
             ObjectPayloadAttributeScheme.ObjectAttributeValues :=
               [Some {| ObjectPayloadAttributeValueScheme.Value := "x" |}] |}).
Proof.
  apply (proj1 (Create_sends_unresolved_name map_to_list map_to_list_perm
                  ex_resource (ex_plan {[ "Nope" := types.StringValue "x" ]})
                  "Nope" (types.StringValue "x") ex_host
                  eq_refl (lookup_singleton_eq _ _) ex_schema_typed
                  ex_nope_unresolved)).
Defined.

(** Read of object 55. *)
Lemma Read_excludes_exactly_the_ignored_names_witness :
  exists attrs response,
    assets.Attributes (client ex_resource) (workspaceId ex_resource)
      (types.ValueString (Id (Model ex_state))) = (attrs, response, None) /\
    forall name,
      name ∈ dom (types.Elements (Attributes ex_refreshed)) <->
      remote_name attrs name /\
      name ∉ (["Created"; "Key"; "Updated"] ++ ignoreKeys ex_resource)%list.
Proof.
  apply (Read_excludes_exactly_the_ignored_names ex_resource ex_state
           ex_read_trace (mkResponse [] (Some ex_refreshed)) ex_refreshed).
  - apply ex_read_run.
  - reflexivity.
Defined.

(** Read of object 55 keeps "Location", which it cannot decode. *)
Lemma Read_keeps_undecodable_attribute_witness :
  "Location" ∈ dom (types.Elements (Attributes ex_refreshed)) /\
  (~ remote_name [] "Location" ->
   types.Elements (Attributes ex_refreshed) !! "Location"
   = Some (types.StringValue "")) /\
  ex_read_trace = [Call (Object_Get "ws" "55");
                   Call (Object_Attributes "ws" "55")] /\
  Diagnostics (mkResponse [] (Some ex_refreshed)) = [].
Proof.
  apply (Read_keeps_undecodable_attribute ex_resource ex_state ex_read_trace
           (mkResponse [] (Some ex_refreshed)) ex_refreshed None
           ex_records_before [] ex_location_record ex_location ""
           (Errorf "unsupported attribute type: %d" [2])).
  - apply ex_read_run.
  - reflexivity.
  - reflexivity.
  - reflexivity.
  - reflexivity.
  - intros Hin. unfold ignore_keys in Hin. simpl in Hin.
    list_cases Hin; discriminate.
Defined.

(** * Further properties of the code *)

(** ** The status lookup table *)

Lemma getConfigStatusIDByName_range_unknown (status : string)
    (table : list StatusTypeMetadata.t) :
  status ∉ (StatusTypeMetadata.Name <$> table) ->
  forall statuses,
    getConfigStatusIDByName_range status table statuses
    = ("", Some (Errorf ("unknown status, available statuses: "
                         ++ strings_Join
                              (statuses ++ (StatusTypeMetadata.Name <$> table))%list
                              ",") [])).
Proof.
  induction table as [|y rest IH]; intros Hnot statuses.
  - simpl. by rewrite app_nil_r.
  - simpl in Hnot. apply not_elem_of_cons in Hnot as [Hne Hnot]. simpl.
    destruct (String.eqb (StatusTypeMetadata.Name y) status) eqn:E.
    + apply eqb_true in E. congruence.
    + rewrite (IH Hnot). by rewrite <- app_assoc.
Qed.

Lemma contains_percent_app (a b : string) :
  contains_percent (a ++ b) = contains_percent a || contains_percent b.
Proof.
  induction a as [|c a IH]; [reflexivity|].
  simpl. rewrite IH. by rewrite orb_assoc.
Qed.

Lemma contains_percent_Join (elems : list string) (sep : string) :
  contains_percent sep = false ->
  (forall n, n ∈ elems -> contains_percent n = false) ->
  contains_percent (strings_Join elems sep) = false.
Proof.
  intros Hsep. unfold strings_Join.
  induction elems as [|n rest IH]; intros Hall; [reflexivity|].
  assert (Hn : contains_percent n = false) by (apply Hall; left).
  assert (Hrest : contains_percent (String.concat sep rest) = false).
  { apply IH. intros m Hm. apply Hall. by right. }
  destruct rest as [|m rest]; [exact Hn|].
  change (contains_percent (n ++ sep ++ String.concat sep (m :: rest)) = false).
  by rewrite !contains_percent_app, Hn, Hsep, Hrest.
Qed.

(** X1: a status name that is not in the table is refused: no ID is
    returned, and the error is built by [fmt.Errorf], without operands,
    from the format "unknown status, available statuses: " followed by
    every name of the table, in table order, separated by commas. When
    no name of the table holds the character [%], that string is the
    text of the error. *)
Theorem unknown_status_lists_every_name :
  forall (status : string) (table : list StatusTypeMetadata.t),
    status ∉ (StatusTypeMetadata.Name <$> table) ->
    let listing :=
      "unknown status, available statuses: "
      ++ strings_Join (StatusTypeMetadata.Name <$> table) "," in
    getConfigStatusIDByName status (Some table)
    = Ret ("", Some (Errorf listing [])) /\
    ((forall n, n ∈ (StatusTypeMetadata.Name <$> table) ->
                contains_percent n = false) ->
     Error_text (Errorf listing []) = Some listing).
Proof.
  intros status table Hnot listing. split.
  - unfold getConfigStatusIDByName. simpl.
    by rewrite (getConfigStatusIDByName_range_unknown _ _ Hnot []).
  - intros Hplain. unfold Error_text. simpl. subst listing.
    rewrite contains_percent_app.
    by rewrite (contains_percent_Join _ "," eq_refl Hplain).
Qed.

(** The scenario of the table [{1, Enabled}; {2, Disabled}]. *)
Lemma unknown_status_lists_every_name_witness :
  getConfigStatusIDByName "Unknown" (Some ex_table)
  = Ret ("", Some (Errorf "unknown status, available statuses: Enabled,Disabled"
                     [])) /\
  Error_text (Errorf "unknown status, available statuses: Enabled,Disabled" [])
  = Some "unknown status, available statuses: Enabled,Disabled".
Proof.
  destruct (unknown_status_lists_every_name "Unknown" ex_table) as [Hrun Htext].
  - intros Hin. unfold ex_table in Hin. simpl in Hin.
    list_cases Hin; discriminate.
  - split; [exact Hrun|]. apply Htext.
    intros n Hn. unfold ex_table in Hn. simpl in Hn.
    list_cases Hn; subst n; reflexivity.
Defined.

Lemma getConfigStatusIDByName_range_first (status : string)
    (before after : list StatusTypeMetadata.t) (x : StatusTypeMetadata.t) :
  StatusTypeMetadata.Name x = status ->
  (forall y, y ∈ before -> StatusTypeMetadata.Name y <> status) ->
  forall statuses,
    getConfigStatusIDByName_range status (before ++ x :: after) statuses
    = (StatusTypeMetadata.ID x, None).
Proof.
  intros Hx. induction before as [|y rest IH]; intros Hbefore statuses.
  - simpl. apply eqb_true in Hx. by rewrite Hx.
  - simpl. destruct (String.eqb (StatusTypeMetadata.Name y) status) eqn:E.
    + apply eqb_true in E. exfalso. apply (Hbefore y); [left | exact E].
    + apply IH. intros z Hz. apply Hbefore. by right.
Qed.

Lemma getConfigStatusNameByID_range_first (id : string)
    (before after : list StatusTypeMetadata.t) (x : StatusTypeMetadata.t) :
  StatusTypeMetadata.ID x = id ->
  (forall y, y ∈ before -> StatusTypeMetadata.ID y <> id) ->
  getConfigStatusNameByID_range id (before ++ x :: after)
  = StatusTypeMetadata.Name x.
Proof.
  intros Hx. induction before as [|y rest IH]; intros Hbefore.
  - simpl. apply eqb_true in Hx. by rewrite Hx.
  - simpl. destruct (String.eqb (StatusTypeMetadata.ID y) id) eqn:E.
    + apply eqb_true in E. exfalso. apply (Hbefore y); [left | exact E].
    + apply IH. intros z Hz. apply Hbefore. by right.
Qed.

Lemma getConfigStatusNameByID_range_unknown (id : string)
    (table : list StatusTypeMetadata.t) :
  (forall y, y ∈ table -> StatusTypeMetadata.ID y <> id) ->
  getConfigStatusNameByID_range id table = "".
Proof.
  induction table as [|y rest IH]; intros Hnone; [reflexivity|].
  simpl. destruct (String.eqb (StatusTypeMetadata.ID y) id) eqn:E.
  - apply eqb_true in E. exfalso. apply (Hnone y); [left | exact E].
  - apply IH. intros z Hz. apply Hnone. by right.
Qed.

(** X2: when several entries of the status table carry the same Name,
    the name is encoded to the ID of the first of them in table order;
    when several carry the same ID, the ID is decoded to the Name of the
    first of them. *)
Theorem status_lookups_take_the_first_entry :
  forall (before after : list StatusTypeMetadata.t) (x : StatusTypeMetadata.t),
    ((forall y, y ∈ before ->
                StatusTypeMetadata.Name y <> StatusTypeMetadata.Name x) ->
     getConfigStatusIDByName (StatusTypeMetadata.Name x)
       (Some (before ++ x :: after)%list)
     = Ret (StatusTypeMetadata.ID x, None)) /\
    ((forall y, y ∈ before ->
                StatusTypeMetadata.ID y <> StatusTypeMetadata.ID x) ->
     getConfigStatusNameByID (StatusTypeMetadata.ID x)
       (Some (before ++ x :: after)%list)
     = Ret (StatusTypeMetadata.Name x)).
Proof.
  intros before after x. split; intros Hbefore.
  - unfold getConfigStatusIDByName. simpl.
    by rewrite (getConfigStatusIDByName_range_first _ _ _ _ eq_refl Hbefore).
  - unfold getConfigStatusNameByID. simpl.
    by rewrite (getConfigStatusNameByID_range_first _ _ _ _ eq_refl Hbefore).
Qed.

(** Two entries named "Enabled": the ID of the first one is taken. *)
Lemma status_lookups_take_the_first_entry_witness :
  getConfigStatusIDByName "Enabled"
    (Some [ {| StatusTypeMetadata.ID := "2"; StatusTypeMetadata.Name := "Disabled" |};
            {| StatusTypeMetadata.ID := "1"; StatusTypeMetadata.Name := "Enabled" |};
            {| StatusTypeMetadata.ID := "7"; StatusTypeMetadata.Name := "Enabled" |} ])
  = Ret ("1", None).
Proof.
  apply (proj1 (status_lookups_take_the_first_entry
                  [ {| StatusTypeMetadata.ID := "2";
                       StatusTypeMetadata.Name := "Disabled" |} ]
                  [ {| StatusTypeMetadata.ID := "7";
                       StatusTypeMetadata.Name := "Enabled" |} ]
                  {| StatusTypeMetadata.ID := "1";
                     StatusTypeMetadata.Name := "Enabled" |})).
  intros y Hy. list_cases Hy. subst y. discriminate.
Defined.

(** X3: a status ID that no entry of the table carries is decoded to the
    empty string, without an error: [getConfigStatusNameByID] returns
    the empty string, and [getAttributeValue] on a status attribute
    (type code 7) holding such an ID returns the empty string with a nil
    error. *)
Theorem unknown_status_id_decodes_to_empty :
  forall (id : string) (table : list StatusTypeMetadata.t),
    (forall y, y ∈ table -> StatusTypeMetadata.ID y <> id) ->
    getConfigStatusNameByID id (Some table) = Ret "" /\
    forall ota value search label rest,
      ObjectTypeAttributeScheme.Type_ ota = 7 ->
      getAttributeValue
        (Some {| ObjectAttributeScheme.ObjectTypeAttribute := Some ota;
                 ObjectAttributeScheme.ObjectAttributeValues :=
                   Some {| ObjectTypeAssetAttributeValueScheme.Value := value;
                           ObjectTypeAssetAttributeValueScheme.SearchValue := search;
                           ObjectTypeAssetAttributeValueScheme.Status :=
                             Some {| ObjectTypeAssetAttributeStatusScheme.ID := id;
                                     ObjectTypeAssetAttributeStatusScheme.Name := label |} |}
                   :: rest |})
        (Some table)
      = Ret ("", None).
Proof.
  intros id table Hnone.
  pose proof (getConfigStatusNameByID_range_unknown _ _ Hnone) as Hdec.
  split.
  - unfold getConfigStatusNameByID. simpl. by rewrite Hdec.
  - intros ota value search label rest Htype.
    unfold getAttributeValue, getConfigStatusNameByID. simpl.
    rewrite Htype. simpl. by rewrite Hdec.
Qed.

(** The ID "9" is not in the table of the instance. *)
Lemma unknown_status_id_decodes_to_empty_witness :
  getConfigStatusNameByID "9" (Some ex_table) = Ret "".
Proof.
  refine (proj1 (unknown_status_id_decodes_to_empty "9" ex_table _)).
  intros y Hy. unfold ex_table in Hy. list_cases Hy; subst y; discriminate.
Defined.

(** X4: when the entries of the status table that share a Name also
    share an ID (in particular when names are unique), every ID of the
    table is decoded to a name that is encoded back to that ID. *)
Theorem status_id_roundtrip :
  forall (table : list StatusTypeMetadata.t) (id : string),
    name_determines_id table ->
    id ∈ (StatusTypeMetadata.ID <$> table) ->
    exists name,
      getConfigStatusNameByID id (Some table) = Ret name /\
      getConfigStatusIDByName name (Some table) = Ret (id, None).
Proof.
  intros table id Hfun Hin.
  apply list_elem_of_fmap in Hin as (x & -> & Hx).
  destruct (getConfigStatusNameByID_range_found _ _ Hx) as (y & Hy & Hxy & Hdec).
  assert (Hyin : StatusTypeMetadata.Name y ∈ (StatusTypeMetadata.Name <$> table))
    by by apply list_elem_of_fmap_2.
  destruct (getConfigStatusIDByName_range_found _ _ Hyin [])
    as (z & Hz & Hzy & Henc).
  exists (StatusTypeMetadata.Name y). split.
  - unfold getConfigStatusNameByID. simpl. by rewrite Hdec.
  - unfold getConfigStatusIDByName. simpl. rewrite Henc.
    by rewrite (Hfun z y Hz Hy Hzy), Hxy.
Qed.

(** The ID "2" of the table of the instance. *)
Lemma status_id_roundtrip_witness :
  exists name,
    getConfigStatusNameByID "2" (Some ex_table) = Ret name /\
    getConfigStatusIDByName name (Some ex_table) = Ret ("2", None).
Proof.
  apply (status_id_roundtrip ex_table "2").
  - intros a b Ha Hb Hname. unfold ex_table in Ha, Hb.
    list_cases Ha; list_cases Hb; subst a b; try reflexivity; discriminate.
  - right. left.
Defined.

(** ** The encoding loop of Create and Update *)

(** Two errors of the encoder under one status table are the same. *)
Lemma returnAttributePayloadValue_errors_agree
    (name1 value1 objectType1 name2 value2 objectType2 : string)
    (schema1 schema2 : list (ptr ObjectTypeAttributeScheme.t))
    (statusType : ptr (list StatusTypeMetadata.t))
    (p1 p2 : ptr ObjectPayloadAttributeScheme.t) (e1 e2 : error) :
  returnAttributePayloadValue name1 value1 objectType1 schema1 statusType
  = Ret (p1, Some e1) ->
  returnAttributePayloadValue name2 value2 objectType2 schema2 statusType
  = Ret (p2, Some e2) ->
  e1 = e2.
Proof.
  intros H1 H2.
  apply returnAttributePayloadValue_error in H1 as (_ & Ha1 & t1 & Ht1 & Hf1).
  apply returnAttributePayloadValue_error in H2 as (_ & Ha2 & t2 & Ht2 & Hf2).
  rewrite Ht1 in Ht2. injection Ht2 as <-.
  destruct e1, e2. simpl in *. congruence.
Qed.

Lemma payloadAttributes_fails (r : objectResource) (objectType : string)
    (e : error) (elements : list (string * types.String)) :
  Forall (encoding_returns r objectType) elements ->
  Exists (encoding_fails r objectType e) elements ->
  forall acc, exists attrs,
    payloadAttributes r objectType elements acc = Ret (attrs, Some e).
Proof.
  induction 1 as [|[k v] rest [[p eo] Hhead] _ IH]; intros Hex acc.
  - inversion Hex.
  - simpl in Hhead. simpl. rewrite Hhead. simpl. destruct eo as [e'|].
    + exists acc. f_equal. f_equal. f_equal.
      apply Exists_exists in Hex as ([k' v'] & _ & p' & Hfail).
      eapply returnAttributePayloadValue_errors_agree; [exact Hhead | exact Hfail].
    + apply IH. apply Exists_cons in Hex as [[p' Hfail] | Hex]; [|exact Hex].
      simpl in Hfail. congruence.
Qed.

Section ControllerFurther.

Variable rangeMap : gmap string types.String -> list (string * types.String).
Hypothesis rangeMap_perm : forall m, rangeMap m ≡ₚ map_to_list m.

Lemma rangeMap_empty : rangeMap ∅ = [].
Proof.
  apply Permutation_nil_r. rewrite rangeMap_perm. by rewrite map_to_list_empty.
Qed.

(** X5: when the encoding of one entry of the planned attribute map
    fails (and none panics), Create and Update stop before the remote
    call, whatever the order in which the map is visited: the trace
    holds the logged error only, the response holds the single
    diagnostic "Error during object attributes setting" with that
    error, and no state is set. *)
Theorem encode_error_aborts_before_the_remote_call :
  forall (r : objectResource) (req : Request) (ot : ObjectTypeScheme.t)
         (k : string) (v : types.String) (e : error),
    let plan := Model req in
    let elems := types.Elements (Attributes plan) in
    let aborted :=
      ([tflog_Error (inr e)],
       Ret (mkResponse [AddError "Error during object attributes setting" e]
              None)) in
    getObjectTypeByName (types.ValueString (Type_ plan)) (objectSchemaTypes r)
    = Ret ot ->
    (forall k' v', elems !! k' = Some v' ->
                   encoding_returns r (ObjectTypeScheme.Name ot) (k', v')) ->
    elems !! k = Some v ->
    encoding_fails r (ObjectTypeScheme.Name ot) e (k, v) ->
    run (Create rangeMap r req) = aborted /\
    run (Update rangeMap r req) = aborted.
Proof.
  intros r req ot k v e plan elems aborted Hot Hall Hkv Hfail.
  destruct (payloadAttributes_fails r (ObjectTypeScheme.Name ot) e
              (rangeMap elems)) with (acc := @nil (ptr ObjectPayloadAttributeScheme.t))
    as [attrs Hloop].
  { apply Forall_forall. intros [k' v'] Hin. apply Hall.
    by apply (rangeMap_elem rangeMap rangeMap_perm). }
  { apply Exists_exists. exists (k, v). split; [|exact Hfail].
    by apply (rangeMap_elem rangeMap rangeMap_perm). }
  split.
  - unfold Create. unfold_M. fold plan. fold elems. by rewrite Hot, Hloop.
  - unfold Update. unfold_M. fold plan. fold elems. by rewrite Hot, Hloop.
Qed.

(** X6: Create and Update set the state only after the remote call has
    succeeded, and never together with a diagnostic: a run that returns
    either reports exactly one diagnostic and sets no state, or reports
    none, has issued its one remote call, and sets a state whose
    workspace ID, global ID, ID, label, object key, created, updated and
    has-avatar fields are those of the object the remote call returned,
    and whose type, attributes and avatar UUID are those of the plan. *)
Theorem state_is_set_only_after_the_remote_call_succeeded :
  forall (r : objectResource) (req : Request) (tr : list Event)
         (resp : Response),
    let plan := Model req in
    let outcome (answered : ObjectPayloadScheme.t -> ObjectScheme.t -> Prop) :=
      (exists d, Diagnostics resp = [d] /\ State resp = None) \/
      (Diagnostics resp = [] /\
       exists payload object st,
         answered payload object /\
         State resp = Some st /\
         WorkspaceId st = types.StringValue (ObjectScheme.WorkspaceId object) /\
         GlobalId st = types.StringValue (ObjectScheme.GlobalId object) /\
         Id st = types.StringValue (ObjectScheme.ID object) /\
         Label st = types.StringValue (ObjectScheme.Label object) /\
         ObjectKey st = types.StringValue (ObjectScheme.ObjectKey object) /\
         Created st = types.StringValue (ObjectScheme.Created object) /\
         Updated st = types.StringValue (ObjectScheme.Updated object) /\
         HasAvatar st = types.BoolValue (ObjectScheme.HasAvatar object) /\
         Type_ st = Type_ plan /\
         Attributes st = Attributes plan /\
         AvatarUuid st = AvatarUuid plan) in
    (run (Create rangeMap r req) = (tr, Ret resp) ->
     outcome (fun payload object =>
                calls tr = [Object_Create (workspaceId r) payload] /\
                exists response,
                  assets.Create (client r) (workspaceId r) payload
                  = (Some object, response, None))) /\
    (run (Update rangeMap r req) = (tr, Ret resp) ->
     outcome (fun payload object =>
                calls tr = [Object_Update (workspaceId r)
                              (types.ValueString (Id plan)) payload] /\
                exists response,
                  assets.Update (client r) (workspaceId r)
                    (types.ValueString (Id plan)) payload
                  = (Some object, response, None))).
Proof.
  intros r req tr resp plan outcome. subst outcome. split.
  - unfold Create. unfold_M. fold plan.
    destruct (getObjectTypeByName _ _) as [ot|]; [|discriminate].
    destruct (payloadAttributes _ _ _ _) as [[attributes [e|]]|];
      [|..|discriminate].
    { intros [= <- <-]. left. by eexists. }
    match goal with
    | |- context [assets.Create ?c ?w ?p] =>
        destruct (assets.Create c w p) as [[object response] [err|]] eqn:Hcall
    end.
    + destruct response; intros [= <- <-]; left; by eexists.
    + destruct object as [object|]; [|discriminate].
      intros [= <- <-]. right. split; [reflexivity|].
      eexists _, object, _. split; [|by repeat split].
      split; [reflexivity|]. by exists response.
  - unfold Update. unfold_M. fold plan.
    destruct (getObjectTypeByName _ _) as [ot|]; [|discriminate].
    destruct (payloadAttributes _ _ _ _) as [[attributes [e|]]|];
      [|..|discriminate].
    { intros [= <- <-]. left. by eexists. }
    match goal with
    | |- context [assets.Update ?c ?w ?i ?p] =>
        destruct (assets.Update c w i p) as [[object response] [err|]] eqn:Hcall
    end.
    + destruct response; intros [= <- <-]; left; by eexists.
    + destruct object as [object|]; [|discriminate].
      intros [= <- <-]. right. split; [reflexivity|].
      eexists _, object, _. split; [|by repeat split].
      split; [reflexivity|]. by exists response.
Qed.

(** X7: a type name that no cached object type carries (the cached types
    being non-nil) raises no error: the lookup yields the zero value,
    every remote call of Create and Update carries an empty
    ObjectTypeID, and with an empty attribute map the call is issued. *)
Theorem unknown_type_is_sent_with_an_empty_id :
  forall (r : objectResource) (req : Request),
    let plan := Model req in
    no_nil (objectSchemaTypes r) ->
    (forall o, Some o ∈ objectSchemaTypes r ->
               ObjectTypeScheme.Name o <> types.ValueString (Type_ plan)) ->
    (forall c, c ∈ calls (run (Create rangeMap r req)).1 ->
       exists payload, c = Object_Create (workspaceId r) payload /\
                       ObjectPayloadScheme.ObjectTypeID payload = "") /\
    (forall c, c ∈ calls (run (Update rangeMap r req)).1 ->
       exists payload, c = Object_Update (workspaceId r)
                             (types.ValueString (Id plan)) payload /\
                       ObjectPayloadScheme.ObjectTypeID payload = "") /\
    (types.Elements (Attributes plan) = ∅ ->
     calls (run (Create rangeMap r req)).1
     = [Object_Create (workspaceId r)
          {| ObjectPayloadScheme.ObjectTypeID := "";
             ObjectPayloadScheme.Attributes := [];
             ObjectPayloadScheme.HasAvatar := types.ValueBool (HasAvatar plan);
             ObjectPayloadScheme.AvatarUUID :=
               types.ValueString (AvatarUuid plan) |}]).
Proof.
  intros r req plan Hnn Hnone.
  assert (Hzero : getObjectTypeByName (types.ValueString (Type_ plan))
                    (objectSchemaTypes r) = Ret ObjectTypeScheme.zero).
  { destruct (getObjectTypeByName_first_match
                (types.ValueString (Type_ plan)) _ Hnn)
      as (o & Ho & [(i & Hi & HP & _) | [_ ->]]); [|exact Ho].
    exfalso. apply (Hnone o); [|exact HP].
    apply list_elem_of_lookup. by exists i. }
  split; [|split].
  - intros c. rewrite (Create_calls rangeMap). fold plan. rewrite Hzero.
    destruct (payloadAttributes _ _ _ _) as [[attributes [e|]]|];
      intros Hc; try by inversion Hc.
    apply list_elem_of_singleton in Hc as ->. by eexists.
  - intros c. rewrite (Update_calls rangeMap). fold plan. rewrite Hzero.
    destruct (payloadAttributes _ _ _ _) as [[attributes [e|]]|];
      intros Hc; try by inversion Hc.
    apply list_elem_of_singleton in Hc as ->. by eexists.
  - intros Hempty. rewrite (Create_calls rangeMap). fold plan.
    by rewrite Hzero, Hempty, rangeMap_empty.
Qed.

End ControllerFurther.

(** ** The remote calls of the lifecycle methods *)

Section Endpoints.

Variable rangeMap : gmap string types.String -> list (string * types.String).

(** X8: each lifecycle method calls its own endpoint only, whatever the
    remote system answers and also when the method panics: Create issues
    at most one create call, Update at most one update call, Delete
    exactly one delete call, and Read the get call, followed by the
    attributes call exactly when the get call reported no error. *)
Theorem lifecycle_methods_call_their_own_endpoint :
  forall (r : objectResource) (req : Request),
    let id := types.ValueString (Id (Model req)) in
    (calls (run (Create rangeMap r req)).1 = [] \/
     exists payload,
       calls (run (Create rangeMap r req)).1
       = [Object_Create (workspaceId r) payload]) /\
    (calls (run (Update rangeMap r req)).1 = [] \/
     exists payload,
       calls (run (Update rangeMap r req)).1
       = [Object_Update (workspaceId r) id payload]) /\
    calls (run (Delete r req)).1 = [Object_Delete (workspaceId r) id] /\
    calls (run (Read r req)).1
    = match (assets.Get (client r) (workspaceId r) id).2 with
      | Some _ => [Object_Get (workspaceId r) id]
      | None => [Object_Get (workspaceId r) id;
                 Object_Attributes (workspaceId r) id]
      end.
Proof.
  intros r req id. split; [|split; [|split]].
  - rewrite Create_calls.
    destruct (getObjectTypeByName _ _) as [ot|]; [|by left].
    destruct (payloadAttributes _ _ _ _) as [[attributes [e|]]|];
      [by left | right; by eexists | by left].
  - rewrite Update_calls.
    destruct (getObjectTypeByName _ _) as [ot|]; [|by left].
    destruct (payloadAttributes _ _ _ _) as [[attributes [e|]]|];
      [by left | right; by eexists | by left].
  - unfold Delete. unfold_M. fold id.
    destruct (assets.Delete _ _ _) as [response [err|]];
      [destruct response|]; reflexivity.
  - unfold Read. unfold_M. fold id.
    destruct (assets.Get _ _ _) as [[object response] [err|]]; simpl.
    { destruct response; reflexivity. }
    destruct (assets.Attributes _ _ _) as [[attrs response'] [err|]].
    { destruct response'; reflexivity. }
    destruct (readAttributes r attrs ∅) as [attributes|]; [|reflexivity].
    destruct object as [object|]; [|reflexivity]. simpl.
    destruct (ObjectScheme.ObjectType object); reflexivity.
Qed.

End Endpoints.

(** ** Read *)

(** X9: Read stops at the first remote error. When the get call fails,
    the attributes call is not issued; when the attributes call fails,
    the object the get call returned is not looked at. Either way the
    response holds the one diagnostic with the remote error, no state is
    set, and the error is logged exactly when a response came with
    it. *)
Theorem Read_stops_at_the_first_remote_error :
  forall (r : objectResource) (req : Request),
    let id := types.ValueString (Id (Model req)) in
    let logged (response : ptr ResponseScheme.t) (msg : string) : list Event :=
      match response with
      | Some _ => [tflog_Error (inl msg)]
      | None => []
      end in
    (forall object response err,
       assets.Get (client r) (workspaceId r) id = (object, response, Some err) ->
       run (Read r req)
       = ((Call (Object_Get (workspaceId r) id)
             :: logged response "Error reading object: %s"),
          Ret (mkResponse [AddError "Error during object reading" err] None))) /\
    (forall object response attrs response' err,
       assets.Get (client r) (workspaceId r) id = (object, response, None) ->
       assets.Attributes (client r) (workspaceId r) id
       = (attrs, response', Some err) ->
       run (Read r req)
       = ((Call (Object_Get (workspaceId r) id)
             :: Call (Object_Attributes (workspaceId r) id)
             :: logged response' "Error reading object attributes: %s"),
          Ret (mkResponse
                 [AddError "Error during object attributes reading" err] None))).
Proof.
  intros r req id logged. split.
  - intros object response err Hget. unfold Read. unfold_M. fold id.
    rewrite Hget. by destruct response.
  - intros object response attrs response' err Hget Hattrs.
    unfold Read. unfold_M. fold id. rewrite Hget, Hattrs.
    by destruct response'.
Qed.

(** X10: Read is idempotent. When a Read has set the state, and the
    object the remote system returned carries the ID that was asked for,
    a Read of the state just set issues the same calls and sets the same
    state again. *)
Theorem Read_is_idempotent :
  forall (r : objectResource) (req : Request) (tr : list Event)
         (resp : Response) (st : objectResourceModel),
    run (Read r req) = (tr, Ret resp) ->
    State resp = Some st ->
    types.ValueString (Id st) = types.ValueString (Id (Model req)) ->
    run (Read r (mkRequest st)) = (tr, Ret resp).
Proof.
  intros r req tr resp st Hrun Hst Hid.
  destruct (Read_success _ _ _ _ _ Hrun Hst)
    as (object & response & attrs & response' & attributes & objectType
        & Hget & Hattrs & Hloop & Hot & -> & Hdiag & Hstate).
  destruct resp as [diags state]. simpl in Hdiag, Hst. subst diags state.
  subst st. simpl in Hid.
  unfold Read. unfold_M. cbn [Model Id Created Updated AvatarUuid].
  cbn [types.ValueString]. rewrite Hid, Hget, Hattrs, Hloop. simpl.
  rewrite Hot. simpl. by rewrite Hid.
Qed.

(** X11: in the map Read rebuilds, a name that is not ignored is given
    the decoded value of the last remote record of that name, whether
    or not earlier records carry the name too. *)
Theorem Read_takes_the_last_record_of_a_name :
  forall (r : objectResource) (req : Request) (tr : list Event)
         (resp : Response) (st : objectResourceModel)
         (response : ptr ResponseScheme.t)
         (before after : list (ptr ObjectAttributeScheme.t))
         (a : ObjectAttributeScheme.t) (ota : ObjectTypeAttributeScheme.t)
         (s : string) (e : option error),
    let id := types.ValueString (Id (Model req)) in
    let name := ObjectTypeAttributeScheme.Name ota in
    run (Read r req) = (tr, Ret resp) ->
    State resp = Some st ->
    assets.Attributes (client r) (workspaceId r) id
    = ((before ++ Some a :: after)%list, response, None) ->
    ObjectAttributeScheme.ObjectTypeAttribute a = Some ota ->
    getAttributeValue (Some a) (configStatusType r) = Ret (s, e) ->
    name ∉ ignore_keys r ->
    ~ remote_name after name ->
    types.Elements (Attributes st) !! name = Some (types.StringValue s).
Proof.
  intros r req tr resp st response before after a ota s e id name
    Hrun Hst Hattrs Hota Hdec Hkeep Hlast.
  destruct (Read_success _ _ _ _ _ Hrun Hst)
    as (object & response0 & attrs & response' & attributes & objectType
        & _ & Hattrs' & Hloop & _ & _ & _ & ->).
  fold id in Hattrs'. rewrite Hattrs in Hattrs'. injection Hattrs' as <- _.
  cbn [Attributes]. rewrite Elements_MapValueFrom_lookup.
  rewrite readAttributes_app in Hloop.
  destruct (readAttributes r before ∅) as [m1|]; [|discriminate].
  cbn [go_bind] in Hloop.
  rewrite (readAttributes_cons _ _ _ _ _ Hota) in Hloop.
  apply slices_Contains_false in Hkeep. fold name in Hloop.
  rewrite Hkeep, Hdec in Hloop. simpl in Hloop.
  rewrite (readAttributes_other _ _ _ Hlast _ _ Hloop).
  by rewrite lookup_insert_eq.
Qed.

(** X12: a Read of the state ImportState leaves asks the remote system
    for the imported ID; when it sets the state, the identifying fields
    come from the remote object, while created, updated and avatar_uuid
    are still null. *)
Theorem Read_after_ImportState :
  forall (r : objectResource) (ID : string) (tr : list Event)
         (resp : Response) (st : objectResourceModel),
    State (ImportState ID) = Some (importedState ID) /\
    (run (Read r (mkRequest (importedState ID))) = (tr, Ret resp) ->
     State resp = Some st ->
     tr = [Call (Object_Get (workspaceId r) ID);
           Call (Object_Attributes (workspaceId r) ID)] /\
     Created st = types.StringNull /\
     Updated st = types.StringNull /\
     AvatarUuid st = types.StringNull /\
     exists object response objectType,
       assets.Get (client r) (workspaceId r) ID = (Some object, response, None) /\
       ObjectScheme.ObjectType object = Some objectType /\
       Id st = types.StringValue (ObjectScheme.ID object) /\
       GlobalId st = types.StringValue (ObjectScheme.GlobalId object) /\
       WorkspaceId st = types.StringValue (ObjectScheme.WorkspaceId object) /\
       Label st = types.StringValue (ObjectScheme.Label object) /\
       ObjectKey st = types.StringValue (ObjectScheme.ObjectKey object) /\
       HasAvatar st = types.BoolValue (ObjectScheme.HasAvatar object) /\
       Type_ st = types.StringValue (ObjectTypeScheme.Name objectType)).
Proof.
  intros r ID tr resp st. split; [reflexivity|]. intros Hrun Hst.
  destruct (Read_success _ _ _ _ _ Hrun Hst)
    as (object & response & attrs & response' & attributes & objectType
        & Hget & _ & _ & Hot & -> & _ & ->).
  simpl in Hget. repeat split.
  by exists object, response, objectType.
Qed.

(** ** The schema cache of the provider *)

Lemma getObjectSchemaAttributes_range_ok (client : assetsClient.t)
    (workSpaceID : string) (ts : list ObjectTypeScheme.t) :
  (forall t, t ∈ ts ->
             fetch_succeeds client workSpaceID (ObjectTypeScheme.Id t)) ->
  forall ret tr,
    exists m,
      getObjectSchemaAttributes_range (Some client) workSpaceID
        (Some <$> ts) ret tr
      = ((tr ++ ((fun t => Call_Attributes workSpaceID (ObjectTypeScheme.Id t)
                             getObjectSchemaAttributes_options) <$> ts))%list,
         Returns m) /\
      forall id,
        m !! id = if decide (id ∈ (ObjectTypeScheme.Id <$> ts))
                  then Some (fetched client workSpaceID id)
                  else ret !! id.
Proof.
  induction ts as [|t rest IH]; intros Hall ret tr.
  - exists ret. split; [simpl; by rewrite app_nil_r | done].
  - assert (Hrest : forall t', t' ∈ rest ->
              fetch_succeeds client workSpaceID (ObjectTypeScheme.Id t')).
    { intros t' Ht'. apply Hall. by right. }
    pose proof (Hall t ltac:(left)) as Ht. unfold fetch_succeeds in Ht.
    destruct (IH Hrest
                (<[ObjectTypeScheme.Id t
                   := fetched client workSpaceID (ObjectTypeScheme.Id t)]> ret)
                (tr ++ [Call_Attributes workSpaceID (ObjectTypeScheme.Id t)
                          getObjectSchemaAttributes_options])%list)
      as (m & Hrun & Hm).
    exists m. split.
    + cbn [fmap list_fmap getObjectSchemaAttributes_range]. unfold_P.
      unfold fetched in Hrun.
      destruct (assetsClient.ObjectType_Attributes client workSpaceID
                  (ObjectTypeScheme.Id t) getObjectSchemaAttributes_options)
        as [[attributes response] err].
      simpl in Ht. subst err. simpl in Hrun.
      rewrite <- app_assoc in Hrun. exact Hrun.
    + intros id. rewrite Hm. cbn [fmap list_fmap].
      destruct (decide (id = ObjectTypeScheme.Id t)) as [-> | Hne].
      * rewrite lookup_insert_eq.
        rewrite (decide_True (P := _ ∈ _ :: _)); [|left].
        by destruct (decide _).
      * rewrite lookup_insert_ne; [|done].
        destruct (decide (id ∈ ObjectTypeScheme.Id <$> rest)) as [Hin | Hnin].
        -- rewrite decide_True; [done | by right].
        -- rewrite decide_False; [done|].
           intros Hin. apply elem_of_cons in Hin as [? | ?]; done.
Qed.

(** X13: when every fetch succeeds, [getObjectSchemaAttributes] issues
    one attributes call per object type, in list order and with the
    options "only value-editable, parents and children included", and
    returns the map that gives, for the ID of every object type of the
    list, the attribute definitions fetched for that ID, and nothing for
    any other key. *)
Theorem getObjectSchemaAttributes_caches_by_type_id :
  forall (client : assetsClient.t) (workSpaceID : string)
         (ts : list ObjectTypeScheme.t),
    (forall t, t ∈ ts ->
               fetch_succeeds client workSpaceID (ObjectTypeScheme.Id t)) ->
    exists m,
      P_run (getObjectSchemaAttributes (Some client) workSpaceID (Some <$> ts))
      = ((fun t =>
            Call_Attributes workSpaceID (ObjectTypeScheme.Id t)
              {| ObjectTypeAttributesParamsScheme.OnlyValueEditable := true;
                 ObjectTypeAttributesParamsScheme.OrderByName := false;
                 ObjectTypeAttributesParamsScheme.Query := "";
                 ObjectTypeAttributesParamsScheme.IncludeValuesExist := false;
                 ObjectTypeAttributesParamsScheme.ExcludeParentAttributes := false;
                 ObjectTypeAttributesParamsScheme.IncludeChildren := true;
                 ObjectTypeAttributesParamsScheme.OrderByRequired := false |})
           <$> ts,
         Returns m) /\
      (forall t, t ∈ ts ->
         m !! ObjectTypeScheme.Id t
         = Some (fetched client workSpaceID (ObjectTypeScheme.Id t))) /\
      (forall id, id ∉ (ObjectTypeScheme.Id <$> ts) -> m !! id = None).
Proof.
  intros client workSpaceID ts Hall.
  destruct (getObjectSchemaAttributes_range_ok client workSpaceID ts Hall ∅ [])
    as (m & Hrun & Hm).
  exists m. split; [exact Hrun|]. split.
  - intros t Ht. rewrite Hm, decide_True; [done|].
    by apply list_elem_of_fmap_2.
  - intros id Hid. by rewrite Hm, decide_False.
Qed.

(** X14: a failed fetch ends the process. When the object types cannot
    be fetched, [getObjectSchemaObjectTypes] logs the response, if there
    is one, and the error, and exits; when the attributes of an object
    type cannot be fetched, [getObjectSchemaAttributes] does the same
    after the calls for the types before it, and issues no call for the
    types after it. *)
Theorem failed_schema_fetch_ends_the_process :
  forall (client : assetsClient.t) (workSpaceID : string),
    let logged (response : ptr ResponseScheme.t) (err : error) :=
      (match response with
       | Some response =>
           [log_Println_Bytes response; log_Println_Endpoint response]
       | None => []
       end ++ [log_Fatal err])%list in
    (forall objectSchemaID schema response err,
       assetsClient.ObjectSchema_ObjectTypes client workSpaceID objectSchemaID
         false = (schema, response, Some err) ->
       P_run (getObjectSchemaObjectTypes (Some client) workSpaceID objectSchemaID)
       = (Call_ObjectTypes workSpaceID objectSchemaID false
            :: logged response err,
          @Exits (list (ptr ObjectTypeScheme.t)))) /\
    (forall before t after attributes response err,
       (forall t', t' ∈ before ->
                   fetch_succeeds client workSpaceID (ObjectTypeScheme.Id t')) ->
       assetsClient.ObjectType_Attributes client workSpaceID
         (ObjectTypeScheme.Id t) getObjectSchemaAttributes_options
       = (attributes, response, Some err) ->
       P_run (getObjectSchemaAttributes (Some client) workSpaceID
                ((Some <$> before) ++ Some t :: after))
       = ((((fun t' => Call_Attributes workSpaceID (ObjectTypeScheme.Id t')
                         getObjectSchemaAttributes_options) <$> before)
             ++ Call_Attributes workSpaceID (ObjectTypeScheme.Id t)
                  getObjectSchemaAttributes_options
             :: logged response err)%list,
          @Exits (gmap string (list (ptr ObjectTypeAttributeScheme.t))))).
Proof.
  intros client workSpaceID logged. split.
  - intros objectSchemaID schema response err Hcall.
    unfold getObjectSchemaObjectTypes. unfold_P. by rewrite Hcall.
  - intros before t after attributes response err Hbefore Hcall.
    unfold getObjectSchemaAttributes, P_run.
    generalize (∅ : gmap string (list (ptr ObjectTypeAttributeScheme.t))).
    assert (Hgen : forall tr ret,
      getObjectSchemaAttributes_range (Some client) workSpaceID
        ((Some <$> before) ++ Some t :: after) ret tr
      = ((tr ++ ((fun t' => Call_Attributes workSpaceID (ObjectTypeScheme.Id t')
                              getObjectSchemaAttributes_options) <$> before)
             ++ Call_Attributes workSpaceID (ObjectTypeScheme.Id t)
                  getObjectSchemaAttributes_options
             :: logged response err)%list,
         Exits)).
    { induction before as [|b rest IH]; intros tr ret.
      - cbn [fmap list_fmap app getObjectSchemaAttributes_range]. unfold_P.
        rewrite Hcall. subst logged. simpl. by rewrite <- app_assoc.
      - cbn [fmap list_fmap app getObjectSchemaAttributes_range]. unfold_P.
        pose proof (Hbefore b ltac:(left)) as Hb. unfold fetch_succeeds in Hb.
        destruct (assetsClient.ObjectType_Attributes client workSpaceID
                    (ObjectTypeScheme.Id b) getObjectSchemaAttributes_options)
          as [[attributes' response'] err'].
        simpl in Hb. subst err'.
        rewrite IH; [|intros t' Ht'; apply Hbefore; by right].
        by rewrite <- app_assoc. }
    intros ret. apply (Hgen [] ret).
Qed.

(** ** The configuration of the provider *)

Lemma setting_known (os : Process) (variable : string)
    (configured : types.String) :
  configured <> types.StringUnknown ->
  setting os variable configured = configured_or_env os variable configured.
Proof. by destruct configured. Qed.

Lemma Unknown_NoDup :
  NoDup [Unknown_WorkspaceId; Unknown_User; Unknown_Password;
         Unknown_ObjectSchemaId].
Proof.
  repeat (apply NoDup_cons; split;
          [intros H; list_cases H; vm_compute in H; discriminate|]).
  apply NoDup_nil_2.
Qed.

Lemma Missing_NoDup :
  NoDup [Missing_WorkspaceId; Missing_User; Missing_Password].
Proof.
  repeat (apply NoDup_cons; split;
          [intros H; list_cases H; vm_compute in H; discriminate|]).
  apply NoDup_nil_2.
Qed.

(** X15: when a setting of the configuration is unknown, Configure
    returns after its first log line, without reading the environment
    or creating the client, and without provider data; its diagnostics
    are, once each and in this order, the "Unknown ..." diagnostics of
    the workspace ID, the user, the password and the object schema ID
    for those of the four that are unknown, and no other. *)
Theorem Configure_reports_every_unknown_setting :
  forall (os : Process) (config : JiraAssetsProviderModel.t),
    ~ all_known config ->
    exists diags,
      P_run (Configure_provider os config)
      = ([tflog_line "info" "Configuring Jira Assets provider"],
         Returns (mkConfigureResponse diags None None)) /\
      (Unknown_WorkspaceId ∈ diags <->
       JiraAssetsProviderModel.WorkspaceId config = types.StringUnknown) /\
      (Unknown_User ∈ diags <->
       JiraAssetsProviderModel.User config = types.StringUnknown) /\
      (Unknown_Password ∈ diags <->
       JiraAssetsProviderModel.Password config = types.StringUnknown) /\
      (Unknown_ObjectSchemaId ∈ diags <->
       JiraAssetsProviderModel.ObjectSchemaId config = types.StringUnknown) /\
      diags `sublist_of` [Unknown_WorkspaceId; Unknown_User; Unknown_Password;
                          Unknown_ObjectSchemaId] /\
      NoDup diags.
Proof.
  intros os [w u p o keys] Hunknown. unfold all_known in Hunknown.
  simpl in Hunknown.
  destruct w as [| |w], u as [| |u], p as [| |p], o as [| |o];
    try (exfalso; apply Hunknown; repeat split; discriminate);
    (eexists; split; [unfold Configure_provider; unfold_P; reflexivity|]);
    cbn [addIf app String_IsUnknown JiraAssetsProviderModel.WorkspaceId
         JiraAssetsProviderModel.User JiraAssetsProviderModel.Password
         JiraAssetsProviderModel.ObjectSchemaId];
    (split; [diag_in|]); (split; [diag_in|]); (split; [diag_in|]);
    (split; [diag_in|]);
    (split; [solve_sublist | eapply sublist_NoDup; [exact Unknown_NoDup | solve_sublist]]).
Qed.

(** X16: when no setting is unknown and the workspace ID, the user or
    the password is empty after the fallback (the configured value if
    there is one, even an empty one, the environment variable
    otherwise), Configure returns after its first log line, without
    creating the client and without provider data; its diagnostics are,
    once each and in this order, the "Missing ..." diagnostics of the
    workspace ID, the user and the password for those of the three that
    are empty, and none for the object schema ID. *)
Theorem Configure_reports_every_missing_setting :
  forall (os : Process) (config : JiraAssetsProviderModel.t),
    let workspaceId :=
      configured_or_env os "JIRAASSETS_WORKSPACE_ID"
        (JiraAssetsProviderModel.WorkspaceId config) in
    let user :=
      configured_or_env os "JIRAASSETS_USER"
        (JiraAssetsProviderModel.User config) in
    let password :=
      configured_or_env os "JIRAASSETS_PASSWORD"
        (JiraAssetsProviderModel.Password config) in
    all_known config ->
    workspaceId = "" \/ user = "" \/ password = "" ->
    exists diags,
      P_run (Configure_provider os config)
      = ([tflog_line "info" "Configuring Jira Assets provider"],
         Returns (mkConfigureResponse diags None None)) /\
      (Missing_WorkspaceId ∈ diags <-> workspaceId = "") /\
      (Missing_User ∈ diags <-> user = "") /\
      (Missing_Password ∈ diags <-> password = "") /\
      diags `sublist_of` [Missing_WorkspaceId; Missing_User; Missing_Password] /\
      NoDup diags.
Proof.
  intros os [w u p o keys] workspaceId user password
    (Hw & Hu & Hp & Ho) Hempty.
  simpl in Hw, Hu, Hp, Ho, workspaceId, user, password.
  unfold Configure_provider.
  cbn [JiraAssetsProviderModel.WorkspaceId JiraAssetsProviderModel.User
       JiraAssetsProviderModel.Password JiraAssetsProviderModel.ObjectSchemaId].
  replace (String_IsUnknown w) with false by by destruct w.
  replace (String_IsUnknown u) with false by by destruct u.
  replace (String_IsUnknown p) with false by by destruct p.
  replace (String_IsUnknown o) with false by by destruct o.
  rewrite !setting_known by done.
  fold workspaceId user password. cbn [addIf app].
  destruct (String.eqb_spec workspaceId ""), (String.eqb_spec user ""),
    (String.eqb_spec password "");
    try (exfalso; by destruct Hempty as [? | [? | ?]]);
    (eexists; split; [reflexivity|]);
    cbn [addIf app];
    (split; [diag_in|]); (split; [diag_in|]); (split; [diag_in|]);
    (split; [solve_sublist | eapply sublist_NoDup; [exact Missing_NoDup | solve_sublist]]).
Qed.

(** X17: when no setting is unknown, the workspace ID, the user and the
    password are non-empty after the fallback (the object schema ID is
    not checked and may be empty), the client is created and every fetch
    succeeds, Configure sets the credentials, fetches the object types
    of the schema and then the attributes of each type, and hands the
    same provider data to resources and data sources: the workspace and
    schema IDs after the fallback, the configured ignore keys, the
    fetched object types, and their attribute definitions by type ID.
    No diagnostic is reported. *)
Theorem Configure_caches_the_schema :
  forall (os : Process) (config : JiraAssetsProviderModel.t)
         (client : assetsClient.t) (ts : list ObjectTypeScheme.t)
         (response : ptr ResponseScheme.t),
    let workspaceId :=
      configured_or_env os "JIRAASSETS_WORKSPACE_ID"
        (JiraAssetsProviderModel.WorkspaceId config) in
    let user :=
      configured_or_env os "JIRAASSETS_USER"
        (JiraAssetsProviderModel.User config) in
    let password :=
      configured_or_env os "JIRAASSETS_PASSWORD"
        (JiraAssetsProviderModel.Password config) in
    let objectschemaId :=
      configured_or_env os "JIRAASSETS_OBJECTSCHEMA_ID"
        (JiraAssetsProviderModel.ObjectSchemaId config) in
    all_known config ->
    workspaceId <> "" -> user <> "" -> password <> "" ->
    New os = (Some client, None) ->
    assetsClient.ObjectSchema_ObjectTypes client workspaceId objectschemaId
      false = (Some <$> ts, response, None) ->
    (forall t, t ∈ ts ->
               fetch_succeeds client workspaceId (ObjectTypeScheme.Id t)) ->
    exists data,
      P_run (Configure_provider os config)
      = (([tflog_line "info" "Configuring Jira Assets provider";
           tflog_line "debug" "Creating HashiCups client";
           assets_New;
           Auth_SetBasicAuth user password;
           Call_ObjectTypes workspaceId objectschemaId false]
            ++ ((fun t => Call_Attributes workspaceId (ObjectTypeScheme.Id t)
                            getObjectSchemaAttributes_options) <$> ts)
            ++ [tflog_line "info" "Configured Jira Assets client"])%list,
         Returns (mkConfigureResponse [] (Some data) (Some data))) /\
      JiraAssetsProviderClient.client data = Some client /\
      JiraAssetsProviderClient.workspaceId data = workspaceId /\
      JiraAssetsProviderClient.objectschemaId data = objectschemaId /\
      JiraAssetsProviderClient.ignoreKeys data
      = JiraAssetsProviderModel.IgnoreKeys config /\
      JiraAssetsProviderClient.objectSchemaTypes data = (Some <$> ts) /\
      (forall t, t ∈ ts ->
         JiraAssetsProviderClient.objectSchemaAttributes data
           !! ObjectTypeScheme.Id t
         = Some (fetched client workspaceId (ObjectTypeScheme.Id t))) /\
      (forall id, id ∉ (ObjectTypeScheme.Id <$> ts) ->
         JiraAssetsProviderClient.objectSchemaAttributes data !! id = None).
Proof.
  intros os [w u p o keys] client ts response workspaceId user password
    objectschemaId (Hw & Hu & Hp & Ho) Hws Huser Hpassword Hnew Htypes Hall.
  simpl in Hw, Hu, Hp, Ho, workspaceId, user, password, objectschemaId.
  destruct (getObjectSchemaAttributes_range_ok client workspaceId ts Hall ∅
              [tflog_line "info" "Configuring Jira Assets provider";
               tflog_line "debug" "Creating HashiCups client";
               assets_New;
               Auth_SetBasicAuth user password;
               Call_ObjectTypes workspaceId objectschemaId false])
    as (m & Hrun & Hm).
  eexists. split.
  { unfold Configure_provider.
    cbn [JiraAssetsProviderModel.WorkspaceId JiraAssetsProviderModel.User
         JiraAssetsProviderModel.Password JiraAssetsProviderModel.ObjectSchemaId
         JiraAssetsProviderModel.IgnoreKeys].
    replace (String_IsUnknown w) with false by by destruct w.
    replace (String_IsUnknown u) with false by by destruct u.
    replace (String_IsUnknown p) with false by by destruct p.
    replace (String_IsUnknown o) with false by by destruct o.
    rewrite !setting_known by done.
    fold workspaceId user password objectschemaId. cbn [addIf app].
    apply eqb_false in Hws, Huser, Hpassword.
    rewrite Hws, Huser, Hpassword. cbn [addIf app].
    unfold getObjectSchemaObjectTypes, getObjectSchemaAttributes. unfold_P.
    rewrite Hnew. cbn [app]. rewrite Htypes. cbn [app].
    rewrite Hrun. rewrite <- app_assoc. reflexivity. }
  repeat split.
  - intros t Ht. cbn [JiraAssetsProviderClient.objectSchemaAttributes].
    rewrite Hm, decide_True; [done|]. by apply list_elem_of_fmap_2.
  - intros id Hid. cbn [JiraAssetsProviderClient.objectSchemaAttributes].
    by rewrite Hm, decide_False.
Qed.

(** ** The further properties at the instances *)

(** Create of a "Host" with the status "Unknown" stops before the remote
    call. *)
Lemma encode_error_aborts_before_the_remote_call_witness :
  run (Create map_to_list ex_resource
         (ex_plan {[ "Status" := types.StringValue "Unknown" ]}))
  = ([tflog_Error (inr ex_unknown_status)],
     Ret (mkResponse
            [AddError "Error during object attributes setting" ex_unknown_status]
            None)).
Proof.
  refine (proj1 (encode_error_aborts_before_the_remote_call
                   map_to_list map_to_list_perm ex_resource
                   (ex_plan {[ "Status" := types.StringValue "Unknown" ]})
                   ex_host "Status" (types.StringValue "Unknown")
                   ex_unknown_status eq_refl _ (lookup_singleton_eq _ _) _)).
  - intros k v Hkv. cbn [types.Elements Attributes Model ex_plan] in Hkv.
    apply lookup_singleton_Some in Hkv as [<- <-].
    eexists. vm_compute. reflexivity.
  - eexists. vm_compute. reflexivity.
Defined.

(** Create of a "Host" with the status "Enabled" sets the state. *)
Lemma state_is_set_only_after_the_remote_call_succeeded_witness :
  exists tr resp,
    run (Create map_to_list ex_resource
           (ex_plan {[ "Status" := types.StringValue "Enabled" ]}))
    = (tr, Ret resp) /\
    ((exists d, Diagnostics resp = [d] /\ State resp = None) \/
     (Diagnostics resp = [] /\
      exists st, State resp = Some st /\
                 Type_ st = types.StringValue "Host")).
Proof.
  assert (Hrun : exists tr resp,
             run (Create map_to_list ex_resource
                    (ex_plan {[ "Status" := types.StringValue "Enabled" ]}))
             = (tr, Ret resp))
    by (eexists _, _; vm_compute; reflexivity).
  destruct Hrun as (tr & resp & Hrun). exists tr, resp.
  split; [exact Hrun|].
  destruct (proj1 (state_is_set_only_after_the_remote_call_succeeded
                     map_to_list ex_resource
                     (ex_plan {[ "Status" := types.StringValue "Enabled" ]})
                     tr resp) Hrun)
    as [Hfail | (Hdiag & payload & object & st & _ & Hst & _ & _ & _ & _ & _
                  & _ & _ & _ & Htype & _)].
  - by left.
  - right. split; [exact Hdiag|]. exists st. split; [exact Hst | exact Htype].
Defined.

(** Create of a "Router" sends an empty type ID. *)
Lemma unknown_type_is_sent_with_an_empty_id_witness :
  calls (run (Create map_to_list ex_resource ex_router_plan)).1
  = [Object_Create "ws"
       {| ObjectPayloadScheme.ObjectTypeID := "";
          ObjectPayloadScheme.Attributes := [];
          ObjectPayloadScheme.HasAvatar := false;
          ObjectPayloadScheme.AvatarUUID := "" |}].
Proof.
  refine (proj2 (proj2 (unknown_type_is_sent_with_an_empty_id
                          map_to_list map_to_list_perm ex_resource
                          ex_router_plan _ _)) eq_refl).
  - intros p Hp. simpl in Hp. list_cases Hp. by subst p.
  - intros o Ho. simpl in Ho. list_cases Ho. injection Ho as ->. discriminate.
Defined.

(** Read from a remote system that is down. *)
Lemma Read_stops_at_the_first_remote_error_witness :
  run (Read ex_resource_down ex_state)
  = ([Call (Object_Get "ws" "55");
      tflog_Error (inl "Error reading object: %s")],
     Ret (mkResponse [AddError "Error during object reading" ex_remote_failure]
            None)).
Proof.
  apply (proj1 (Read_stops_at_the_first_remote_error ex_resource_down ex_state)
           None (Some ex_response) ex_remote_failure).
  reflexivity.
Defined.

(** A second Read of object 55. *)
Lemma Read_is_idempotent_witness :
  run (Read ex_resource (mkRequest ex_refreshed))
  = (ex_read_trace, Ret (mkResponse [] (Some ex_refreshed))).
Proof.
  apply (Read_is_idempotent ex_resource ex_state ex_read_trace
           (mkResponse [] (Some ex_refreshed)) ex_refreshed).
  - apply ex_read_run.
  - reflexivity.
  - reflexivity.
Defined.

(** The status of object 55. *)
Lemma Read_takes_the_last_record_of_a_name_witness :
  types.Elements (Attributes ex_refreshed) !! "Status"
  = Some (types.StringValue "Enabled").
Proof.
  apply (Read_takes_the_last_record_of_a_name ex_resource ex_state
           ex_read_trace (mkResponse [] (Some ex_refreshed)) ex_refreshed None
           (take 2 ex_records_before) [Some ex_location_record]
           ex_status_record ex_status "Enabled" None).
  - apply ex_read_run.
  - reflexivity.
  - reflexivity.
  - reflexivity.
  - reflexivity.
  - intros Hin. unfold ignore_keys in Hin. simpl in Hin.
    list_cases Hin; discriminate.
  - intros (b & otb & Hb & Hotb & Hname). list_cases Hb.
    injection Hb as ->. simpl in Hotb. injection Hotb as <-. discriminate.
Defined.

(** Import of object 55, then Read. *)
Lemma Read_after_ImportState_witness :
  Created ex_imported_refreshed = types.StringNull /\
  Updated ex_imported_refreshed = types.StringNull /\
  Id ex_imported_refreshed = types.StringValue "55".
Proof.
  destruct (proj2 (Read_after_ImportState ex_resource "55" ex_read_trace
                     (mkResponse [] (Some ex_imported_refreshed))
                     ex_imported_refreshed))
    as (_ & Hcreated & Hupdated & _ & object & response & objectType
        & Hget & _ & Hid & _).
  - vm_compute. reflexivity.
  - reflexivity.
  - injection Hget as <- _. by repeat split.
Defined.

(** The cache of the schema of the instance. *)
Lemma getObjectSchemaAttributes_caches_by_type_id_witness :
  exists m,
    P_run (getObjectSchemaAttributes (Some ex_assets) "ws" [Some ex_host])
    = ([Call_Attributes "ws" "10" getObjectSchemaAttributes_options],
       Returns m) /\
    m !! "10" = Some ex_schema.
Proof.
  destruct (getObjectSchemaAttributes_caches_by_type_id ex_assets "ws"
              [ex_host]) as (m & Hrun & Hm & _).
  - intros t Ht. list_cases Ht. by subst t.
  - exists m. split; [exact Hrun|]. apply (Hm ex_host). left.
Defined.

(** The object types cannot be fetched. *)
Lemma failed_schema_fetch_ends_the_process_witness :
  P_run (getObjectSchemaObjectTypes (Some ex_assets_down) "ws" "1")
  = ([Call_ObjectTypes "ws" "1" false; log_Fatal ex_remote_failure], Exits).
Proof.
  apply (proj1 (failed_schema_fetch_ends_the_process ex_assets_down "ws")
           "1" [] None ex_remote_failure).
  reflexivity.
Defined.

(** The password is not known yet. *)
Lemma Configure_reports_every_unknown_setting_witness :
  exists diags,
    P_run (Configure_provider ex_process ex_config_unknown)
    = ([tflog_line "info" "Configuring Jira Assets provider"],
       Returns (mkConfigureResponse diags None None)) /\
    Unknown_Password ∈ diags /\ NoDup diags.
Proof.
  destruct (Configure_reports_every_unknown_setting ex_process
              ex_config_unknown) as (diags & Hrun & _ & _ & Hp & _ & _ & Hnodup).
  - intros (_ & _ & Hknown & _). by apply Hknown.
  - exists diags. split; [exact Hrun|]. split; [by apply Hp | exact Hnodup].
Defined.

(** An empty workspace ID in the configuration hides the one of the
    environment. *)
Lemma Configure_reports_every_missing_setting_witness :
  Getenv ex_process "JIRAASSETS_WORKSPACE_ID" = "ws-env" /\
  exists diags,
    P_run (Configure_provider ex_process ex_config_empty)
    = ([tflog_line "info" "Configuring Jira Assets provider"],
       Returns (mkConfigureResponse diags None None)) /\
    Missing_WorkspaceId ∈ diags /\ NoDup diags.
Proof.
  split; [reflexivity|].
  destruct (Configure_reports_every_missing_setting ex_process
              ex_config_empty) as (diags & Hrun & Hw & _ & _ & _ & Hnodup).
  - repeat split; discriminate.
  - by left.
  - exists diags. split; [exact Hrun|]. split; [by apply Hw | exact Hnodup].
Defined.

(** The provider of the instance is configured without an object schema
    ID. *)
Lemma Configure_caches_the_schema_witness :
  exists data,
    P_run (Configure_provider ex_process ex_config)
    = ([tflog_line "info" "Configuring Jira Assets provider";
        tflog_line "debug" "Creating HashiCups client";
        assets_New;
        Auth_SetBasicAuth "bot" "secret";
        Call_ObjectTypes "ws" "" false;
        Call_Attributes "ws" "10" getObjectSchemaAttributes_options;
        tflog_line "info" "Configured Jira Assets client"],
       Returns (mkConfigureResponse [] (Some data) (Some data))) /\
    JiraAssetsProviderClient.workspaceId data = "ws" /\
    JiraAssetsProviderClient.objectschemaId data = "" /\
    JiraAssetsProviderClient.objectSchemaAttributes data !! "10"
    = Some ex_schema.
Proof.
  destruct (Configure_caches_the_schema ex_process ex_config ex_assets
              [ex_host] None)
    as (data & Hrun & _ & Hws & Hschema & _ & _ & Hattrs & _).
  - repeat split; discriminate.
  - discriminate.
  - discriminate.
  - discriminate.
  - reflexivity.
  - reflexivity.
  - intros t Ht. list_cases Ht. by subst t.
  - exists data. split; [exact Hrun|]. split; [exact Hws|].
    split; [exact Hschema|]. apply (Hattrs ex_host). left.
Defined.
